(** * Terrace extractor: image -> Canny -> skeleton -> polylines

    A shallow embedding of [terrace_extractor.py] and the properties of
    its coordinate mapping, length filter, ingestion and driver.

    Python [float] is IEEE-754 binary64 and is modelled by Rocq's
    primitive floats; NumPy [uint8] is modelled by [Z] with the
    wrap-around modulo 256 written out; the libraries the script calls
    (OpenCV, scikit-image, shapely, pyproj, rasterio) are gathered in one
    record of collaborators, so that every definition below is a function
    of the script's own text only. *)

From Stdlib Require Import ZArith List Bool String Ascii Lia.
From Stdlib Require Import Floats Uint63.
Import ListNotations.

Local Open Scope Z_scope.

(** ** Python numbers *)

(** [int * float] first converts the [int] to a [float].  The conversion
    is exact below 2^53 and rounds to nearest-even above, which is what
    [of_uint63] does; pixel coordinates are 32-bit, far below the 63 bits
    where [Uint63.of_Z] would wrap. *)
Definition float_of_int (z : Z) : float :=
  if z <? 0 then PrimFloat.opp (PrimFloat.of_uint63 (Uint63.of_Z (- z)))
  else PrimFloat.of_uint63 (Uint63.of_Z z).

(** [x.astype(np.uint8)] on an integer array. *)
Definition astype_uint8 (v : Z) : Z := v mod 256.

(** Product of a [uint8] array element with a Python integer that fits in
    [uint8]: NumPy keeps the [uint8] type, so the product wraps. *)
Definition mul_uint8 (v k : Z) : Z := (v * k) mod 256.

(** [arr.astype(np.uint8) * 255], element by element. *)
Definition times_255 (arr : list (list Z)) : list (list Z) :=
  map (map (fun v => mul_uint8 (astype_uint8 v) 255)) arr.

(** ** Python strings and paths *)

(** [s.replace(old, new)]: every non-overlapping occurrence, scanning
    from the left.  [skip] counts the characters of a match that are
    still to be passed over. *)
Fixpoint replace_from (old new : string) (skip : nat) (s : string) : string :=
  match s with
  | EmptyString => EmptyString
  | String ch rest =>
      match skip with
      | S k => replace_from old new k rest
      | O =>
          if String.prefix old s
          then String.append new (replace_from old new (Nat.pred (String.length old)) rest)
          else String ch (replace_from old new O rest)
      end
  end.

Definition replace (s old new : string) : string := replace_from old new O s.

Fixpoint ends_with_slash (s : string) : bool :=
  match s with
  | EmptyString => false
  | String ch EmptyString => Ascii.eqb ch "/"%char
  | String _ rest => ends_with_slash rest
  end.

(** [os.path.join(dir, name)] for a relative [name]. *)
Definition path_join (dir name : string) : string :=
  match dir with
  | EmptyString => name
  | _ => if ends_with_slash dir then String.append dir name
         else String.append dir (String "/"%char name)
  end.

Definition lower_ascii (ch : ascii) : ascii :=
  let n := nat_of_ascii ch in
  if (Nat.leb 65 n && Nat.leb n 90)%bool then ascii_of_nat (n + 32) else ch.

Fixpoint lower (s : string) : string :=
  match s with
  | EmptyString => EmptyString
  | String ch rest => String (lower_ascii ch) (lower rest)
  end.

(** *** Paths as [pathlib] reads them

    [Path(path)] splits the string at the separators and drops the
    components that are empty or a single dot, so that ["a//b"],
    ["a/./b"] and ["a/b/"] all read as ["a/b"]. *)
Definition is_dropped (part : string) : bool :=
  (String.eqb part "" || String.eqb part ".")%bool.

(** The components of [path]; [cur] is the component read so far. *)
Fixpoint parts_from (cur path : string) : list string :=
  match path with
  | EmptyString => if is_dropped cur then [] else [cur]
  | String ch rest =>
      if Ascii.eqb ch "/"%char then
        if is_dropped cur then parts_from EmptyString rest
        else cur :: parts_from EmptyString rest
      else parts_from (String.append cur (String ch EmptyString)) rest
  end.

Definition path_parts (path : string) : list string := parts_from EmptyString path.

Definition starts_with_slash (s : string) : bool :=
  match s with
  | String ch _ => Ascii.eqb ch "/"%char
  | EmptyString => false
  end.

Definition string_tail (s : string) : string :=
  match s with
  | String _ rest => rest
  | EmptyString => EmptyString
  end.

(** The root of a POSIX path: ["/"] for an absolute path, ["//"] for one
    that starts with exactly two separators, nothing for a relative
    one. *)
Definition path_root (path : string) : string :=
  if starts_with_slash path then
    if (starts_with_slash (string_tail path)
        && negb (starts_with_slash (string_tail (string_tail path))))%bool
    then "//"%string else "/"%string
  else EmptyString.

(** [str(p)] of a path with the given root and components. *)
Definition path_str (root : string) (parts : list string) : string :=
  match root, parts with
  | EmptyString, [] => "."%string
  | _, _ => String.append root (String.concat "/" parts)
  end.

(** [str(Path(dir) / name)] for a file name [name]. *)
Definition Path_div (dir name : string) : string :=
  path_str (path_root dir) (path_parts dir ++ [name]).

(** [Path(path).name]: the last component, [""] when there is none. *)
Definition basename (path : string) : string := last (path_parts path) EmptyString.

(** Position of the last ["."] of [s], counted from [i]. *)
Fixpoint rfind_dot (i : nat) (found : option nat) (s : string) : option nat :=
  match s with
  | EmptyString => found
  | String ch rest =>
      rfind_dot (S i) (if Ascii.eqb ch "."%char then Some i else found) rest
  end.

(** [Path(path).suffix]: the last dot of the final component and what
    follows it, when that dot is neither the first nor the last
    character of the component. *)
Definition suffix (path : string) : string :=
  let name := basename path in
  match rfind_dot O None name with
  | Some i =>
      if (Nat.ltb 0 i && Nat.ltb i (Nat.pred (String.length name)))%bool
      then String.substring i (String.length name - i) name
      else EmptyString
  | None => EmptyString
  end.

(** ** Data model *)

(** The affine transform of a raster: [x = c + col*a + row*b],
    [y = f + col*d + row*e]. *)
Module Affine.
Record t : Type := mk {
  a : float; b : float; c : float;
  d : float; e : float; f : float
}.
End Affine.

(** A coordinate reference system, as far as the script looks at it. *)
Record CRS : Type := {
  crs_name : string;
  is_geographic : bool
}.

Definition Grid : Type := list (list Z).
Definition BinaryMask : Type := Grid.
(** An image of shape (height, width, channels). *)
Definition Image : Type := list (list (list Z)).

(** A pixel position as OpenCV reports it: [(x, y)] = (column, row). *)
Definition Pixel : Type := (Z * Z)%type.
Definition Contour : Type := list Pixel.

Definition Point : Type := (float * float)%type.
(** A line geometry is its coordinate sequence. *)
Definition LineGeometry : Type := list Point.

Record GeoDataFrame : Type := {
  geometry : list LineGeometry;
  crs : option CRS
}.

(** What [rasterio.open(path)] gives access to. *)
Record Dataset : Type := {
  ds_bands : list Grid;
  ds_transform : Affine.t;
  ds_crs : option CRS
}.

(** Python exceptions that the script raises or lets through. *)
Inductive exn : Type :=
| FileNotFoundError
| RasterioIOError
| ValueError.

Inductive result (A : Type) : Type :=
| Ok (x : A)
| Raise (err : exn).
Arguments Ok {A} x.
Arguments Raise {A} err.

(** The read failures of the input file. *)
Definition is_read_error (err : exn) : bool :=
  match err with
  | FileNotFoundError | RasterioIOError => true
  | _ => false
  end.

(** ** Collaborators

    The library calls of the script.  Each field is one call with the
    flags the script fixes.

    The calls other than the two decoders and [LineString] are taken on
    the arguments they accept: an odd positive kernel for
    [GaussianBlur], an EPSG code that pyproj knows, a file system that
    takes the writes.  On other arguments the library raises and the run
    stops at that call, so that the events of such a run are an initial
    part of the trace of [main].  The properties of [main] are stated
    with this in mind: they speak of every event of a trace, or of the
    runs that return. *)
Record Collaborators : Type := {
  (** [_try_import_rasterio()] found the module. *)
  rasterio_available : bool;
  (** The file system: the bytes stored at a path, if the path exists. *)
  files : string -> option string;
  (** GDAL's decoder behind [rasterio.open(path)] and [ds.read()]. *)
  gdal_decode : string -> option Dataset;
  (** OpenCV's decoder behind [cv2.imread(path, cv2.IMREAD_COLOR)]. *)
  cv_decode : string -> option Image;
  (** [cv2.cvtColor(img, cv2.COLOR_BGR2GRAY)]. *)
  cvtColor_BGR2GRAY : Image -> Grid;
  (** [cv2.GaussianBlur(gray, (k, k), 0)]. *)
  GaussianBlur : Grid -> Z -> Grid;
  (** [cv2.Canny(blurred, t1, t2)]. *)
  Canny : Grid -> Z -> Z -> Grid;
  (** [skimage.morphology.skeletonize]: a boolean array. *)
  skeletonize : Grid -> list (list bool);
  (** [cv2.findContours(img, cv2.RETR_LIST, cv2.CHAIN_APPROX_NONE)[0]]. *)
  findContours : Grid -> list Contour;
  (** [shapely.geometry.LineString(pts)]; [None] when it raises. *)
  LineString : list Point -> option LineGeometry;
  (** pyproj's resolution of an EPSG code. *)
  CRS_from_epsg : Z -> CRS;
  (** pyproj's transformation of one geometry between two systems. *)
  reproject : CRS -> CRS -> LineGeometry -> LineGeometry
}.

(** ** Effects

    The outward calls of a run, in the order they are made: writes to the
    file system and two printed lines.  An event records that the call
    was made with these arguments, not what the file system did with
    it. *)
Inductive Event : Type :=
(** [cv2.imwrite(path, pixels)]. *)
| ImWrite (path : string) (pixels : Grid)
(** [rasterio.open(path, "w", driver="GTiff", ...)] and [dst.write(pixels, 1)]. *)
| GTiffWrite (path : string) (height width : nat) (pixels : Grid)
    (transform : Affine.t) (crs_tag : CRS)
(** [Path(dir).mkdir(parents=True, exist_ok=True)]. *)
| Mkdir (dir : string)
(** [gdf.to_file(path, layer=..., driver=...)]. *)
| ToFile (path : string) (layer driver : option string) (gdf : GeoDataFrame)
| Print (words : list string).

(** A computation that appends to the trace of events and may raise. *)
Definition IO (A : Type) : Type := list Event -> result A * list Event.

Definition ret {A} (x : A) : IO A := fun tr => (Ok x, tr).

Definition bind {A B} (m : IO A) (k : A -> IO B) : IO B :=
  fun tr =>
    match m tr with
    | (Ok x, tr') => k x tr'
    | (Raise err, tr') => (Raise err, tr')
    end.

Definition emit (ev : Event) : IO unit := fun tr => (Ok tt, tr ++ [ev]).

Definition lift {A} (r : result A) : IO A := fun tr => (r, tr).

Notation "x <- m ;; k" := (bind m (fun x => k))
  (at level 61, m at next level, right associativity).
Notation "m ;;; k" := (bind m (fun _ => k))
  (at level 61, right associativity).

(** The trace of a computation started with nothing done yet. *)
Definition run {A} (m : IO A) : result A * list Event := m [].

(** Is the event the write of an output file? *)
Definition is_output_write (ev : Event) : bool :=
  match ev with
  | ImWrite _ _ | GTiffWrite _ _ _ _ _ _ | ToFile _ _ _ _ => true
  | Mkdir _ | Print _ => false
  end.

Definition is_mkdir (dir : string) (ev : Event) : bool :=
  match ev with
  | Mkdir d => String.eqb d dir
  | _ => false
  end.

(** Every output write of the trace has a [Mkdir dir] somewhere before it. *)
Fixpoint mkdir_precedes_writes (dir : string) (made : bool) (tr : list Event) : bool :=
  match tr with
  | [] => true
  | ev :: rest =>
      (if is_output_write ev then made else true)
      && mkdir_precedes_writes dir (made || is_mkdir dir ev) rest
  end.

(** ** The script *)

Section Script.

Variable K : Collaborators.

(** [rasterio.open(path)] followed by [ds.read()]: fails on a missing
    path and on bytes GDAL cannot decode. *)
Definition rasterio_open (path : string) : option Dataset :=
  match files K path with
  | Some bytes => gdal_decode K bytes
  | None => None
  end.

(** [cv2.imread(path, cv2.IMREAD_COLOR)]: [None] on a missing path and on
    bytes OpenCV cannot decode. *)
Definition imread (path : string) : option Image :=
  match files K path with
  | Some bytes => cv_decode K bytes
  | None => None
  end.

Fixpoint zip3_with {A B} (g : A -> A -> A -> B) (xs ys zs : list A) : list B :=
  match xs, ys, zs with
  | x :: xs', y :: ys', z :: zs' => g x y z :: zip3_with g xs' ys' zs'
  | _, _, _ => []
  end.

(** [np.transpose(arr, (1, 2, 0))[:, :, ::-1]] for three bands: channels
    last, in reverse band order. *)
Definition bands_to_bgr (b0 b1 b2 : Grid) : Image :=
  zip3_with (zip3_with (fun v0 v1 v2 => [v2; v1; v0])) b0 b1 b2.

(** [np.stack([band, band, band], axis=-1)]. *)
Definition stack3 (band : Grid) : Image :=
  map (map (fun v => [v; v; v])) band.

(** Does the script take the georeferenced read for this path? *)
Definition reads_with_rasterio (path : string) : bool :=
  let ext := lower (suffix path) in
  rasterio_available K && (String.eqb ext ".tif" || String.eqb ext ".tiff").

(** On a dataset without any band [ds.read()] itself raises
    [ValueError] (there is no band index to read), before the number of
    bands is looked at. *)
Definition read_image (path : string)
  : result (Image * option (Affine.t * option CRS)) :=
  if reads_with_rasterio path then
    match rasterio_open path with
    | None => Raise RasterioIOError
    | Some ds =>
        match ds_bands ds with
        | [b0; b1; b2] =>
            Ok (bands_to_bgr b0 b1 b2, Some (ds_transform ds, ds_crs ds))
        | band :: _ =>
            Ok (stack3 band, Some (ds_transform ds, ds_crs ds))
        | [] => Raise ValueError
        end
    end
  else
    match imread path with
    | None => Raise FileNotFoundError
    | Some img => Ok (img, None)
    end.

Definition grid_height (g : Grid) : nat := List.length g.
Definition grid_width (g : Grid) : nat :=
  match g with
  | [] => O
  | row :: _ => List.length row
  end.

Definition save_binary (binary : BinaryMask) (out_path : string)
    (transform : option Affine.t) (crs_tag : option CRS) : IO unit :=
  match rasterio_available K, transform, crs_tag with
  | true, Some tf, Some cr =>
      emit (GTiffWrite out_path (grid_height binary) (grid_width binary)
              (map (map astype_uint8) binary) tf cr)
  | _, _, _ =>
      emit (ImWrite (replace out_path ".tif" ".png") (times_255 binary))
  end.

Definition positive_to_uint8 (v : Z) : Z := if 0 <? v then 1 else 0.
Definition bool_to_uint8 (v : bool) : Z := if v then 1 else 0.

Definition canny_and_skeleton (image_bgr : Image) (t1 t2 kernel : Z)
  : BinaryMask * BinaryMask :=
  let gray := cvtColor_BGR2GRAY K image_bgr in
  let blurred := GaussianBlur K gray kernel in
  let edges := Canny K blurred t1 t2 in
  let skel :=
    map (map bool_to_uint8)
        (skeletonize K (map (map positive_to_uint8) edges)) in
  (map (map positive_to_uint8) edges, skel).

(** One pass of the loop over the contours: [lines] is the list built so
    far, [to_world] the pixel-to-world map of the branch. *)
Definition trace_step (to_world : Pixel -> Point)
    (lines : list LineGeometry) (cnt : Contour) : list LineGeometry :=
  if (List.length cnt <? 2)%nat then lines
  else
    let pts := map to_world cnt in
    match LineString K pts with
    | Some line => lines ++ [line]
    | None => lines
    end.

(** The georeferenced map of a pixel: scale and offset only. *)
Definition geo_point (tf : Affine.t) (p : Pixel) : Point :=
  let a := Affine.a tf in
  let e := Affine.e tf in
  let c := Affine.c tf in
  let f := Affine.f tf in
  ((c + float_of_int (fst p) * a)%float, (f + float_of_int (snd p) * e)%float).

(** The fallback map of a pixel: the row axis is flipped. *)
Definition fallback_point (x0 y0 pixel_size : float) (p : Pixel) : Point :=
  ((x0 + float_of_int (fst p) * pixel_size)%float,
   (y0 - float_of_int (snd p) * pixel_size)%float).

Definition set_crs (gdf : GeoDataFrame) (epsg : Z) : GeoDataFrame :=
  {| geometry := geometry gdf; crs := Some (CRS_from_epsg K epsg) |}.

Definition vectorize_skeleton (skel : BinaryMask) (pixel_size : float)
    (transform : option Affine.t) (crs_tag : option CRS)
    (epsg : option Z) (origin_xy : option (float * float)) : GeoDataFrame :=
  let skel_u8 := times_255 skel in
  let contours := findContours K skel_u8 in
  match transform, crs_tag with
  | Some tf, Some cr =>
      let lines := fold_left (trace_step (geo_point tf)) contours [] in
      {| geometry := lines; crs := Some cr |}
  | _, _ =>
      let origin_xy :=
        match origin_xy with
        | None => (0%float, 0%float)
        | Some o => o
        end in
      let '(x0, y0) := origin_xy in
      let lines :=
        fold_left (trace_step (fallback_point x0 y0 pixel_size)) contours [] in
      let gdf := {| geometry := lines; crs := None |} in
      match epsg with
      | Some code => set_crs gdf code
      | None => gdf
      end
  end.

(** [gdf.to_crs(epsg)]: geopandas refuses a frame without a system, and
    otherwise transforms every geometry ([reproject] stands for the whole
    step, the shortcut for equal systems included). *)
Definition to_crs (gdf : GeoDataFrame) (epsg : Z) : result GeoDataFrame :=
  match crs gdf with
  | None => Raise ValueError
  | Some src =>
      let dst := CRS_from_epsg K epsg in
      Ok {| geometry := map (reproject K src dst) (geometry gdf);
            crs := Some dst |}
  end.

(** The length of a line as GEOS computes it: the segments' Euclidean
    lengths summed from the first one on. *)
Definition segment_length (p q : Point) : float :=
  let dx := (fst q - fst p)%float in
  let dy := (snd q - snd p)%float in
  PrimFloat.sqrt (dx * dx + dy * dy)%float.

Fixpoint length_from (acc : float) (p : Point) (rest : list Point) : float :=
  match rest with
  | [] => acc
  | q :: rest' => length_from (acc + segment_length p q)%float q rest'
  end.

Definition line_length (line : LineGeometry) : float :=
  match line with
  | [] => 0%float
  | p :: rest => length_from 0%float p rest
  end.

Definition filter_by_length (gdf : GeoDataFrame) (min_length_m : float)
    (project_epsg : option Z) : result GeoDataFrame :=
  let reprojected :=
    match project_epsg with
    | Some code => to_crs gdf code
    | None => Ok gdf
    end in
  match reprojected with
  | Raise err => Raise err
  | Ok gdf =>
      match crs gdf with
      | None => Ok gdf
      | Some cr =>
          if is_geographic cr then Ok gdf
          else
            Ok {| geometry :=
                    filter (fun line => (min_length_m <=? line_length line)%float)
                           (geometry gdf);
                  crs := crs gdf |}
      end
  end.

Definition write_vectors (gdf : GeoDataFrame) (out_dir : string)
    (as_gpkg : bool) : IO string :=
  emit (Mkdir out_dir) ;;;
  if as_gpkg then
    let out_gpkg := Path_div out_dir "terrace_lines.gpkg" in
    emit (ToFile out_gpkg (Some "terraces"%string) (Some "GPKG"%string) gdf) ;;;
    ret out_gpkg
  else
    let out_shp := Path_div out_dir "terrace_lines.shp" in
    emit (ToFile out_shp None None gdf) ;;;
    ret out_shp.

(** The parsed command line. *)
Record Args : Type := {
  image : string;
  out : string;
  t1 : Z;
  t2 : Z;
  kernel : Z;
  min_length : float;
  as_gpkg : bool;
  epsg : option Z;
  pixel_size : float;
  origin_x : float;
  origin_y : float;
  project_epsg : option Z
}.

Definition main (args : Args) : IO unit :=
  read <- lift (read_image (image args)) ;;
  let '(img, geo) := read in
  let '(transform, crs_tag) :=
    match geo with
    | Some (tf, cr) => (Some tf, cr)
    | None => (None, None)
    end in
  let '(edges_bin, skel) :=
    canny_and_skeleton img (t1 args) (t2 args) (kernel args) in
  save_binary edges_bin (path_join (out args) "terrace_edges.tif")
    transform crs_tag ;;;
  save_binary skel (path_join (out args) "terrace_skeleton.tif")
    transform crs_tag ;;;
  let gdf :=
    match transform, crs_tag with
    | Some tf, Some cr =>
        vectorize_skeleton skel (pixel_size args) (Some tf) (Some cr) None None
    | _, _ =>
        vectorize_skeleton skel (pixel_size args) None None (epsg args)
          (Some (origin_x args, origin_y args))
    end in
  gdf <- lift (filter_by_length gdf (min_length args) (project_epsg args)) ;;
  vec_path <- write_vectors gdf (out args) (as_gpkg args) ;;
  emit (Print ["Outputs written to:"%string; out args]) ;;;
  emit (Print ["Vector file:"%string; vec_path]).

End Script.

(** ** Contracts of the collaborators

    What the properties below ask of the libraries; each is a hypothesis
    of the theorems that need it, never a fact taken for granted. *)

(** A line that shapely builds has the coordinates it was given. *)
Definition LineString_faithful (K : Collaborators) : Prop :=
  forall pts line, LineString K pts = Some line -> line = pts.

(** shapely builds a line from any two or more coordinates. *)
Definition LineString_accepts_lines (K : Collaborators) : Prop :=
  forall pts, (2 <= List.length pts)%nat -> LineString K pts = Some pts.

(** The pixel at column [fst p], row [snd p] is inside the image and is
    not zero. *)
Definition is_foreground (img : Grid) (p : Pixel) : bool :=
  (0 <=? fst p) && (0 <=? snd p)
  && negb (nth (Z.to_nat (fst p)) (nth (Z.to_nat (snd p)) img []) 0 =? 0).

(** Every point of every contour is a foreground pixel of the image. *)
Definition traces_foreground (img : Grid) (contours : list Contour) : bool :=
  forallb (forallb (is_foreground img)) contours.

Definition all_background (mask : BinaryMask) : bool :=
  forallb (forallb (Z.eqb 0)) mask.

(** The contours that become a line: two or more vertices, and shapely
    accepts their image under [to_world]. *)
Definition becomes_line (K : Collaborators) (to_world : Pixel -> Point)
    (cnt : Contour) : bool :=
  (2 <=? List.length cnt)%nat
  && match LineString K (map to_world cnt) with
     | Some _ => true
     | None => false
     end.

(** The pixel-to-world map of one call of [vectorize_skeleton]: the
    georeferenced one when both the transform and the system are given,
    the fallback one otherwise. *)
Definition pixel_to_world (pixel_size : float) (transform : option Affine.t)
    (crs_tag : option CRS) (origin_xy : option (float * float))
  : Pixel -> Point :=
  match transform, crs_tag with
  | Some tf, Some _ => geo_point tf
  | _, _ =>
      match origin_xy with
      | None => fallback_point 0 0 pixel_size
      | Some (x0, y0) => fallback_point x0 y0 pixel_size
      end
  end.

(** The trace (0,0), (1,1), ..., (n,n). *)
Definition diagonal (n : nat) : Contour :=
  map (fun i => (Z.of_nat i, Z.of_nat i)) (seq 0 (S n)).

(** In the words of the specification: the path length of a line is the
    sum of the Euclidean distances between consecutive vertices.  The
    distances are taken pair by pair along the line and added to 0 from
    the first pair to the last.  [line_length] above is what the code
    computes; the two are compared in the properties. *)
Definition euclidean_distance (p q : Point) : float :=
  PrimFloat.sqrt ((fst q - fst p) * (fst q - fst p)
                  + (snd q - snd p) * (snd q - snd p))%float.

Fixpoint consecutive_vertices (line : list Point) : list (Point * Point) :=
  match line with
  | [] => []
  | p :: rest =>
      match rest with
      | [] => []
      | q :: _ => (p, q) :: consecutive_vertices rest
      end
  end.

Definition path_length (line : LineGeometry) : float :=
  fold_left (fun total pq => (total + euclidean_distance (fst pq) (snd pq))%float)
    (consecutive_vertices line) 0%float.

(** The frame has no system, or one in angular units. *)
Definition lacks_linear_units (gdf : GeoDataFrame) : bool :=
  match crs gdf with
  | None => true
  | Some cr => is_geographic cr
  end.

(** [l1] is [l2] with some elements left out, the others in their order. *)
Inductive subsequence {A : Type} : list A -> list A -> Prop :=
| subsequence_nil : subsequence [] []
| subsequence_skip (x : A) (l1 l2 : list A) :
    subsequence l1 l2 -> subsequence l1 (x :: l2)
| subsequence_keep (x : A) (l1 l2 : list A) :
    subsequence l1 l2 -> subsequence (x :: l1) (x :: l2).

(** The arguments of a run with the fallback configuration replaced. *)
Definition with_fallback_config (args : Args) (pixel_size' : float)
    (origin_x' origin_y' : float) (epsg' : option Z) : Args :=
  {| image := image args; out := out args;
     t1 := t1 args; t2 := t2 args; kernel := kernel args;
     min_length := min_length args; as_gpkg := as_gpkg args;
     epsg := epsg';
     pixel_size := pixel_size';
     origin_x := origin_x'; origin_y := origin_y';
     project_epsg := project_epsg args |}.

(** ** Vocabulary for the properties of the whole pipeline *)

(** Channel [k] of an image. *)
Definition channel (k : nat) (img : Image) : Grid :=
  map (map (fun px => nth k px 0)) img.

(** Two grids have as many rows, each as long as its counterpart. *)
Definition same_shape (g1 g2 : Grid) : Prop :=
  map (@List.length Z) g1 = map (@List.length Z) g2.

(** Every pixel of the grid is one of the values allowed. *)
Definition pixels_in (allowed : list Z) (g : Grid) : bool :=
  forallb (forallb (fun v => existsb (Z.eqb v) allowed)) g.

(** The event of one call of [save_binary]. *)
Definition raster_event (K : Collaborators) (binary : BinaryMask)
    (out_path : string) (transform : option Affine.t) (crs_tag : option CRS)
  : Event :=
  match rasterio_available K, transform, crs_tag with
  | true, Some tf, Some cr =>
      GTiffWrite out_path (grid_height binary) (grid_width binary)
        (map (map astype_uint8) binary) tf cr
  | _, _, _ => ImWrite (replace out_path ".tif" ".png") (times_255 binary)
  end.

(** The pixels of a raster write are among [plain] when the raster is a
    plain image and among [tagged] when it is georeferenced. *)
Definition raster_pixels_in (plain tagged : list Z) (ev : Event) : bool :=
  match ev with
  | ImWrite _ pixels => pixels_in plain pixels
  | GTiffWrite _ _ _ pixels _ _ => pixels_in tagged pixels
  | _ => true
  end.

Definition is_raster_write (ev : Event) : bool :=
  match ev with
  | ImWrite _ _ | GTiffWrite _ _ _ _ _ _ => true
  | _ => false
  end.

Definition is_vector_write (ev : Event) : bool :=
  match ev with
  | ToFile _ _ _ _ => true
  | _ => false
  end.

Definition is_any_mkdir (ev : Event) : bool :=
  match ev with
  | Mkdir _ => true
  | _ => false
  end.

(** The path of the vector file for an output directory. *)
Definition vector_path (out_dir : string) (as_gpkg : bool) : string :=
  Path_div out_dir (if as_gpkg then "terrace_lines.gpkg" else "terrace_lines.shp").

(** The string has no ["."] in it. *)
Fixpoint has_no_dot (s : string) : bool :=
  match s with
  | EmptyString => true
  | String ch rest => negb (Ascii.eqb ch "."%char) && has_no_dot rest
  end.

(** The string has no ["/"] in it. *)
Fixpoint has_no_slash (s : string) : bool :=
  match s with
  | EmptyString => true
  | String ch rest => negb (Ascii.eqb ch "/"%char) && has_no_slash rest
  end.

(** The georeference that [main] works with: a transform only when the
    file was read through rasterio, a system only when the file has one. *)
Definition transform_of (geo : option (Affine.t * option CRS)) : option Affine.t :=
  match geo with
  | Some (tf, _) => Some tf
  | None => None
  end.

Definition crs_of (geo : option (Affine.t * option CRS)) : option CRS :=
  match geo with
  | Some (_, cr) => cr
  | None => None
  end.

Definition vectorized (K : Collaborators) (args : Args) (skel : BinaryMask)
    (geo : option (Affine.t * option CRS)) : GeoDataFrame :=
  match transform_of geo, crs_of geo with
  | Some tf, Some cr =>
      vectorize_skeleton K skel (pixel_size args) (Some tf) (Some cr) None None
  | _, _ =>
      vectorize_skeleton K skel (pixel_size args) None None (epsg args)
        (Some (origin_x args, origin_y args))
  end.

(** pyproj moves the points of a line and keeps their number. *)
Definition reproject_keeps_points (K : Collaborators) : Prop :=
  forall src dst line,
    List.length (reproject K src dst line) = List.length line.

(** ** A small world to run the script in

    Stand-ins for the libraries, simple enough to compute with: they are
    used to run the script on concrete inputs, and to show that the
    contracts above can be met. *)
Module Demo.

(** The foreground pixels of one row, left to right. *)
Fixpoint row_pixels (y x : Z) (row : list Z) : Contour :=
  match row with
  | [] => []
  | v :: rest =>
      if v =? 0 then row_pixels y (x + 1) rest
      else (x, y) :: row_pixels y (x + 1) rest
  end.

(** One contour per band of consecutive non-empty rows, its pixels in
    raster order. *)
Fixpoint trace_bands (y : Z) (cur : Contour) (img : Grid) : list Contour :=
  match img with
  | [] => match cur with [] => [] | _ => [cur] end
  | row :: rest =>
      match row_pixels y 0 row with
      | [] =>
          match cur with
          | [] => trace_bands (y + 1) [] rest
          | _ => cur :: trace_bands (y + 1) [] rest
          end
      | px => trace_bands (y + 1) (cur ++ px) rest
      end
  end.

(** shapely refuses a single coordinate. *)
Definition line_string (pts : list Point) : option LineGeometry :=
  match pts with
  | [_] => None
  | _ => Some pts
  end.

Definition utm33 : CRS := {| crs_name := "EPSG:32633"; is_geographic := false |}.
Definition wgs84 : CRS := {| crs_name := "EPSG:4326"; is_geographic := true |}.

Definition crs_from_epsg (code : Z) : CRS :=
  if code =? 4326 then wgs84 else utm33.

(** A north-up transform: 0.3 m pixels, upper-left corner at
    (500000, 4000000). *)
Definition north_up : Affine.t :=
  Affine.mk 0x1.3333333333333p-2 0 500000 0 (-0x1.3333333333333p-2) 4000000.

Definition diagonal_band : Grid := [[255; 0; 0]; [0; 255; 0]; [0; 0; 255]].

(** A skeleton mask with the diagonal of three pixels as foreground. *)
Definition diagonal_mask : BinaryMask := [[1; 0; 0]; [0; 1; 0]; [0; 0; 1]].

(** A skeleton mask with a two-pixel trace and an isolated pixel. *)
Definition dotted_mask : BinaryMask := [[0; 1; 1]; [0; 0; 0]; [1; 0; 0]; [0; 0; 0]].

Definition blank_mask : BinaryMask := [[0; 0; 0]; [0; 0; 0]].

Definition scene : Dataset :=
  {| ds_bands := [diagonal_band]; ds_transform := north_up; ds_crs := Some utm33 |}.

Definition photo : Image := stack3 [[255; 255; 0]; [0; 0; 0]; [0; 255; 0]].

Definition world : Collaborators :=
  {| rasterio_available := true;
     files := fun path =>
       if String.eqb path "scene.tif" then Some "geotiff"%string
       else if String.eqb path "photo.png" then Some "png"%string
       else if String.eqb path "plain.tif" then Some "tiff only opencv decodes"%string
       else None;
     gdal_decode := fun bytes =>
       if String.eqb bytes "geotiff" then Some scene else None;
     cv_decode := fun bytes =>
       if String.eqb bytes "geotiff" then None else Some photo;
     cvtColor_BGR2GRAY := map (map (fun px => hd 0 px));
     GaussianBlur := fun gray _ => gray;
     Canny := fun img _ t2 => map (map (fun v => if t2 <? v then 255 else 0)) img;
     skeletonize := map (map (fun v => negb (v =? 0)));
     findContours := trace_bands 0 [];
     LineString := line_string;
     CRS_from_epsg := crs_from_epsg;
     reproject := fun _ _ line => line |}.

(** Two lines: one of length 3, one of length 10. *)
Definition short_line : LineGeometry := [(0, 0); (3, 0)]%float.
Definition long_line : LineGeometry := [(0, 0); (6, 8)]%float.

Definition frame_in (cr : option CRS) : GeoDataFrame :=
  {| geometry := [short_line; long_line; short_line]; crs := cr |}.

(** Lines of several segments: 3 + 4 = 7, and 5 + 4 + 3 = 12; their
    first segments alone measure 3 and 5, their end points are 5 and 0
    apart. *)
Definition bent_line : LineGeometry := [(0, 0); (3, 0); (3, 4)]%float.
Definition closed_line : LineGeometry := [(0, 0); (3, 4); (3, 0); (0, 0)]%float.

Definition bent_frame : GeoDataFrame :=
  {| geometry := [short_line; bent_line; closed_line; short_line];
     crs := Some utm33 |}.

(** A raster of three bands that has a transform and no system. *)
Definition red_band : Grid := [[10; 11]; [12; 13]].
Definition green_band : Grid := [[20; 21]; [22; 23]].
Definition blue_band : Grid := [[30; 31]; [32; 33]].

Definition rgb_scene : Dataset :=
  {| ds_bands := [red_band; green_band; blue_band];
     ds_transform := north_up; ds_crs := None |}.

Definition args_for (image_path : string) : Args :=
  {| image := image_path; out := "out";
     t1 := 50; t2 := 150; kernel := 3;
     min_length := 5; as_gpkg := false; epsg := None;
     pixel_size := 0x1.3333333333333p-2;
     origin_x := 0; origin_y := 0; project_epsg := None |}.

(** The same world, where every file decodes to the three-band raster. *)
Definition rgb_world : Collaborators :=
  {| rasterio_available := true;
     files := files world;
     gdal_decode := fun _ => Some rgb_scene;
     cv_decode := cv_decode world;
     cvtColor_BGR2GRAY := cvtColor_BGR2GRAY world;
     GaussianBlur := GaussianBlur world;
     Canny := Canny world;
     skeletonize := skeletonize world;
     findContours := findContours world;
     LineString := LineString world;
     CRS_from_epsg := CRS_from_epsg world;
     reproject := reproject world |}.

(** A run that asks for a reprojection. *)
Definition args_reprojecting (image_path : string) (code : Z) : Args :=
  {| image := image_path; out := "out";
     t1 := 50; t2 := 150; kernel := 3;
     min_length := 5; as_gpkg := false; epsg := None;
     pixel_size := 0x1.3333333333333p-2;
     origin_x := 0; origin_y := 0; project_epsg := Some code |}.

End Demo.

(** ** Proof automation *)

(** Case analysis on every comparison of integers in the goal. *)
Ltac split_compares :=
  repeat match goal with
  | |- context [Pos.compare_cont Eq ?a ?b] =>
      change (Pos.compare_cont Eq a b) with (Pos.compare a b)
  end;
  repeat match goal with
  | |- context [(?a ?= ?b)%Z] => destruct (Z.compare_spec a b)
  | |- context [(?a ?= ?b)%positive] => destruct (Pos.compare_spec a b)
  end.

(** * Properties *)

(** ** Facts about binary64 arithmetic

    Derived from the specification of the primitive operations
    ([Prim2SF] and the [SF] functions). *)

Lemma digits2_pos_shift (k : nat) (m : positive) :
  Zpos (digits2_pos (Nat.iter k xO m)) = Zpos (digits2_pos m) + Z.of_nat k.
Proof.
  induction k as [|k IH]; simpl Nat.iter.
  - lia.
  - cbn [digits2_pos]. rewrite Pos2Z.inj_succ, IH. lia.
Qed.

Lemma bounded_inv (m : positive) (e : Z) :
  bounded prec emax m e = true ->
  fexp prec emax (Zpos (digits2_pos m) + e) = e /\ e <= emax - prec.
Proof.
  unfold bounded, canonical_mantissa. intros H.
  apply andb_true_iff in H. destruct H as [H1 H2].
  apply Z.eqb_eq in H1. apply Z.leb_le in H2. auto.
Qed.

(** Rounding a mantissa that is already canonical changes nothing. *)
Lemma binary_round_aux_canonical (s : bool) (m : positive) (e : Z) :
  bounded prec emax m e = true ->
  binary_round_aux prec emax s (Zpos m) e loc_Exact = S754_finite s m e.
Proof.
  intros H. destruct (bounded_inv m e H) as [Hc Hb].
  unfold binary_round_aux, shr_fexp. cbn [Zdigits2 shr_record_of_loc].
  rewrite Hc, Z.sub_diag. cbn [shr loc_of_shr_record shr_m round_nearest_even Zdigits2 shr_record_of_loc].
  rewrite Hc, Z.sub_diag. cbn [shr shr_m].
  apply Z.leb_le in Hb. rewrite Hb. reflexivity.
Qed.

Lemma shr_52_exact (m : positive) :
  iter_pos shr_1 52 {| shr_m := Zpos (Nat.iter 52%nat xO m); shr_r := false; shr_s := false |}
  = {| shr_m := Zpos m; shr_r := false; shr_s := false |}.
Proof. reflexivity. Qed.

Lemma SF64mul_one_r (x : spec_float) :
  valid_binary x = true -> SF64mul x (Prim2SF 1%float) = x.
Proof.
  change (Prim2SF 1%float) with (S754_finite false 4503599627370496 (-52)).
  destruct x as [s|s| |s m e]; cbn [SF64mul SFmul valid_binary]; intros H;
    try reflexivity; try (destruct s; reflexivity).
  destruct (bounded_inv m e H) as [Hc Hb].
  rewrite xorb_false_r, Pos.mul_comm.
  change (4503599627370496 * m)%positive with (Nat.iter 52%nat xO m).
  unfold binary_round_aux at 1. unfold shr_fexp at 1.
  cbn [Zdigits2 shr_record_of_loc].
  rewrite digits2_pos_shift.
  replace (Zpos (digits2_pos m) + Z.of_nat 52 + (e + -52)) with (Zpos (digits2_pos m) + e) by lia.
  rewrite Hc. replace (e - (e + -52)) with 52 by lia.
  cbn [shr]. rewrite shr_52_exact.
  cbn [loc_of_shr_record shr_m round_nearest_even].
  replace (e + -52 + 52) with e by lia.
  unfold shr_fexp. cbn [Zdigits2 shr_record_of_loc].
  rewrite Hc, Z.sub_diag. cbn [shr shr_m].
  apply Z.leb_le in Hb. rewrite Hb. reflexivity.
Qed.

Lemma mul_one_r (x : float) : (x * 1)%float = x.
Proof.
  apply Prim2SF_inj. rewrite FloatAxioms.mul_spec. apply SF64mul_one_r, Prim2SF_valid.
Qed.

Lemma add_zero_l (x : float) :
  Prim2SF x <> S754_zero true -> (0 + x)%float = x.
Proof.
  intros Hx. apply Prim2SF_inj. rewrite FloatAxioms.add_spec.
  change (Prim2SF 0%float) with (S754_zero false).
  destruct (Prim2SF x) as [[|]|s| |s m e]; try reflexivity.
  now elim Hx.
Qed.

Lemma sub_zero_l (x : float) :
  Prim2SF x <> S754_zero false -> (0 - x)%float = (- x)%float.
Proof.
  intros Hx. apply Prim2SF_inj. rewrite FloatAxioms.sub_spec, FloatAxioms.opp_spec.
  change (Prim2SF 0%float) with (S754_zero false).
  destruct (Prim2SF x) as [[|]|s| |s m e]; try reflexivity.
  now elim Hx.
Qed.

Lemma digits2_pos_lower (p : positive) :
  2 ^ (Zpos (digits2_pos p) - 1) <= Zpos p.
Proof.
  induction p as [p IH|p IH|]; cbn [digits2_pos].
  - rewrite Pos2Z.inj_succ. replace (Z.succ (Zpos (digits2_pos p)) - 1) with (Z.succ (Zpos (digits2_pos p) - 1)) by lia.
    rewrite Z.pow_succ_r by lia. lia.
  - rewrite Pos2Z.inj_succ. replace (Z.succ (Zpos (digits2_pos p)) - 1) with (Z.succ (Zpos (digits2_pos p) - 1)) by lia.
    rewrite Z.pow_succ_r by lia. lia.
  - reflexivity.
Qed.

Lemma digits2_pos_iter (k p : positive) :
  Zpos (digits2_pos (Pos.iter xO p k)) = Zpos (digits2_pos p) + Zpos k.
Proof.
  induction k as [|k IH] using Pos.peano_ind.
  - cbn. lia.
  - rewrite Pos.iter_succ. cbn [digits2_pos]. rewrite Pos2Z.inj_succ, IH. lia.
Qed.

(** An integer below 2^53 converts to a finite positive float. *)
Lemma binary_normalize_small (p : positive) :
  Zpos p < 2 ^ 53 ->
  exists m e, binary_normalize prec emax (Zpos p) 0 false = S754_finite false m e.
Proof.
  intros Hp. cbn [binary_normalize]. unfold binary_round.
  assert (Hd : Zpos (digits2_pos p) <= 53).
  { pose proof (digits2_pos_lower p) as Hl.
    destruct (Z_le_gt_dec (Zpos (digits2_pos p)) 53) as [|Hgt]; [assumption|].
    assert (2 ^ 53 <= 2 ^ (Zpos (digits2_pos p) - 1)) by (apply Z.pow_le_mono_r; lia).
    lia. }
  assert (Hf : fexp prec emax (Zpos (digits2_pos p) + 0) = Zpos (digits2_pos p) - 53).
  { unfold fexp, emin, prec, emax. lia. }
  rewrite Hf. unfold shl_align.
  destruct (Zpos (digits2_pos p) - 53 - 0) as [|k|k] eqn:Hk; try lia.
  - exists p, 0. apply binary_round_aux_canonical.
    unfold bounded, canonical_mantissa. rewrite Hf.
    apply andb_true_iff. split; [apply Z.eqb_eq; lia | reflexivity].
  - exists (Pos.iter xO p k), (Zpos (digits2_pos p) - 53).
    apply binary_round_aux_canonical.
    unfold bounded, canonical_mantissa. rewrite digits2_pos_iter.
    apply andb_true_iff. split.
    + apply Z.eqb_eq. unfold fexp, emin, prec, emax. lia.
    + apply Z.leb_le. unfold prec, emax. lia.
Qed.

Lemma of_uint63_small (z : Z) :
  0 < z < 2 ^ 53 ->
  exists m e, Prim2SF (of_uint63 (Uint63.of_Z z)) = S754_finite false m e.
Proof.
  intros Hz. rewrite FloatAxioms.of_uint63_spec, Uint63.of_Z_spec.
  rewrite Z.mod_small by (change wB with (2 ^ 63); split; [lia|]; 
    apply Z.lt_trans with (2 ^ 53); [lia | reflexivity]).
  destruct z as [|p|p]; try lia.
  apply binary_normalize_small. lia.
Qed.

Lemma compare_cont_swap (p q : positive) :
  Pos.compare_cont Eq q p = CompOpp (Pos.compare_cont Eq p q).
Proof. symmetry. apply (Pos.compare_cont_antisym p q Eq). Qed.

Lemma SFcompare_Lt_swap (x y : spec_float) :
  SFcompare x y = Some Lt -> SFcompare y x = Some Gt.
Proof.
  destruct x as [sx|sx| |sx mx ex], y as [sy|sy| |sy my ey]; cbn [SFcompare];
    try discriminate; try (destruct sx; discriminate || reflexivity);
    try (destruct sy; discriminate || reflexivity);
    try (destruct sx, sy; discriminate || reflexivity).
  rewrite (Z.compare_antisym ex ey), (compare_cont_swap mx my).
  destruct sx, sy; try discriminate; try reflexivity;
    destruct (ex ?= ey); cbn [CompOpp]; try discriminate; try reflexivity;
    destruct (Pos.compare_cont Eq mx my); cbn [CompOpp]; try discriminate; reflexivity.
Qed.

Lemma ltb_leb_false (x y : float) :
  (x <? y)%float = true -> (y <=? x)%float = false.
Proof.
  rewrite FloatAxioms.ltb_spec, FloatAxioms.leb_spec. unfold SFltb, SFleb.
  destruct (SFcompare (Prim2SF x) (Prim2SF y)) as [[| |]|] eqn:Hc; try discriminate.
  intros _. rewrite (SFcompare_Lt_swap _ _ Hc). reflexivity.
Qed.

(** With pixel size 1 and origin (0, 0) the fallback map is exact: the
    pixel (i, i) lands on (i, -i). *)
Lemma fallback_point_unit (i : Z) :
  0 <= i < 2 ^ 53 ->
  fallback_point 0 0 1 (i, i) = (float_of_int i, float_of_int (- i)).
Proof.
  intros Hi. unfold fallback_point. cbn [fst snd]. rewrite mul_one_r.
  destruct (Z.eq_dec i 0) as [->|Hnz]; [reflexivity|].
  unfold float_of_int.
  replace (i <? 0) with false by (symmetry; apply Z.ltb_ge; lia).
  replace (- i <? 0) with true by (symmetry; apply Z.ltb_lt; lia).
  rewrite Z.opp_involutive.
  destruct (of_uint63_small i) as (m & e & Hm); [lia|].
  rewrite add_zero_l, sub_zero_l by (rewrite Hm; discriminate).
  reflexivity.
Qed.

(** ** The uint8 scaling of a mask *)

(** The scaling by 255 wraps modulo 256 and still keeps background and
    foreground apart: a scaled pixel is 0 exactly when the [uint8] pixel
    is, and a 0/1 mask becomes a 0/255 image. *)
Theorem times_255_keeps_foreground (v : Z) :
  (mul_uint8 (astype_uint8 v) 255 = 0 <-> astype_uint8 v = 0)
  /\ mul_uint8 (astype_uint8 0) 255 = 0
  /\ mul_uint8 (astype_uint8 1) 255 = 255.
Proof.
  split; [|split; reflexivity].
  unfold mul_uint8, astype_uint8.
  pose proof (Z.mod_pos_bound v 256 ltac:(lia)) as Hb.
  split; intros H.
  - destruct (Z.eq_dec (v mod 256) 0) as [|Hnz]; [assumption|].
    assert (Hq : (v mod 256 * 255) mod 256 = 256 - v mod 256).
    { symmetry. apply (Z.mod_unique _ _ (v mod 256 - 1)); lia. }
    lia.
  - rewrite H. reflexivity.
Qed.

Lemma times_255_background (mask : BinaryMask) (r col : nat) :
  all_background mask = true ->
  nth col (nth r (times_255 mask) []) 0 = 0.
Proof.
  unfold all_background, times_255. revert r.
  induction mask as [|row mask IH]; intros r H.
  - destruct r, col; reflexivity.
  - cbn [forallb map] in H |- *. apply andb_true_iff in H. destruct H as [Hrow Hrest].
    destruct r as [|r]; cbn [nth]; [|apply IH; exact Hrest].
    clear IH Hrest. revert col.
    induction row as [|v row IHrow]; intros col.
    + destruct col; reflexivity.
    + cbn [forallb map] in Hrow |- *. apply andb_true_iff in Hrow.
      destruct Hrow as [Hv Hrow]. apply Z.eqb_eq in Hv. subst v.
      destruct col as [|col]; cbn [nth]; [reflexivity|]. apply IHrow; exact Hrow.
Qed.

Lemma no_foreground_in_background (mask : BinaryMask) (p : Pixel) :
  all_background mask = true -> is_foreground (times_255 mask) p = false.
Proof.
  intros H. unfold is_foreground.
  rewrite (times_255_background mask _ _ H), Z.eqb_refl.
  cbn [negb]. apply andb_false_r.
Qed.

(** ** The loop over the contours *)

Section ContourLoop.

Variable K : Collaborators.
Variable to_world : Pixel -> Point.

(** The loop appends, in order, the lines of the contours that have two
    or more vertices and that shapely accepts. *)
Lemma trace_loop_lines (contours : list Contour) (lines : list LineGeometry) :
  LineString_faithful K ->
  fold_left (trace_step K to_world) contours lines
  = lines ++ map (map to_world) (filter (becomes_line K to_world) contours).
Proof.
  intros Hf. revert lines.
  induction contours as [|cnt contours IH]; intros lines; cbn [fold_left filter].
  - cbn [map]. now rewrite app_nil_r.
  - rewrite IH. unfold trace_step, becomes_line.
    destruct (Nat.ltb_spec (List.length cnt) 2) as [Hlt|Hge].
    + replace (2 <=? List.length cnt)%nat with false
        by (symmetry; apply Nat.leb_gt; exact Hlt).
      reflexivity.
    + replace (2 <=? List.length cnt)%nat with true
        by (symmetry; apply Nat.leb_le; exact Hge).
      cbn [andb].
      destruct (LineString K (map to_world cnt)) as [line|] eqn:Hline.
      * apply Hf in Hline. subst line. cbn [map]. now rewrite <- app_assoc.
      * reflexivity.
Qed.

(** Without any contract on shapely: a contour with no vertex leaves the
    list as it is. *)
Lemma trace_loop_empty_contours (contours : list Contour) (lines : list LineGeometry) :
  Forall (fun cnt => cnt = []) contours ->
  fold_left (trace_step K to_world) contours lines = lines.
Proof.
  intros H. revert lines.
  induction H as [|cnt contours Hc _ IH]; intros lines; cbn [fold_left].
  - reflexivity.
  - subst cnt. rewrite IH. reflexivity.
Qed.

Lemma becomes_line_two_points (cnt : Contour) :
  becomes_line K to_world cnt = true -> (2 <= List.length cnt)%nat.
Proof.
  unfold becomes_line. intros H. apply andb_true_iff in H.
  destruct H as [H _]. apply Nat.leb_le. exact H.
Qed.

End ContourLoop.

(** ** The stand-ins meet the contracts *)

Lemma demo_line_string_faithful : LineString_faithful Demo.world.
Proof.
  intros pts line. cbn [LineString Demo.world]. unfold Demo.line_string.
  destruct pts as [|p [|q pts]]; intros H; inversion H; reflexivity.
Qed.

Lemma demo_line_string_accepts : LineString_accepts_lines Demo.world.
Proof.
  intros pts Hlen. cbn [LineString Demo.world]. unfold Demo.line_string.
  destruct pts as [|p [|q pts]]; cbn [List.length] in Hlen; try lia; reflexivity.
Qed.

(** ** The vectorizer *)

(** The geometries of one call are the images of the contours that
    become lines, whatever the branch. *)
Lemma vectorize_skeleton_geometry (K : Collaborators) (skel : BinaryMask)
    (pixel_size : float) (transform : option Affine.t) (crs_tag : option CRS)
    (epsg : option Z) (origin_xy : option (float * float)) :
  LineString_faithful K ->
  geometry (vectorize_skeleton K skel pixel_size transform crs_tag epsg origin_xy)
  = map (map (pixel_to_world pixel_size transform crs_tag origin_xy))
      (filter (becomes_line K (pixel_to_world pixel_size transform crs_tag origin_xy))
         (findContours K (times_255 skel))).
Proof.
  intros Hf. unfold vectorize_skeleton, pixel_to_world.
  destruct transform as [tf|], crs_tag as [cr|], origin_xy as [[x0 y0]|], epsg as [code|];
    cbn [geometry set_crs]; now rewrite trace_loop_lines.
Qed.

(** C1. On the georeferenced path every traced pixel (col, row) is mapped
    to (c + col*a, f + row*e): the geometries are the images under this
    map of the contours that become lines, the rotation terms b and d
    play no part, and with a = 0.3, e = -0.3, c = 500000, f = 4000000 the
    pixel (10, 20) lands exactly on (500003.0, 3999994.0). *)
Theorem georeferenced_mapping (K : Collaborators) (skel : BinaryMask)
    (pixel_size : float) (tf : Affine.t) (cr : CRS)
    (epsg : option Z) (origin_xy : option (float * float)) :
  LineString_faithful K ->
  let to_world := fun p : Pixel =>
    ((Affine.c tf + float_of_int (fst p) * Affine.a tf)%float,
     (Affine.f tf + float_of_int (snd p) * Affine.e tf)%float) in
  geometry (vectorize_skeleton K skel pixel_size (Some tf) (Some cr) epsg origin_xy)
  = map (map to_world)
      (filter (becomes_line K to_world) (findContours K (times_255 skel)))
  /\ (forall b' d' : float,
        vectorize_skeleton K skel pixel_size
          (Some (Affine.mk (Affine.a tf) b' (Affine.c tf) d' (Affine.e tf) (Affine.f tf)))
          (Some cr) epsg origin_xy
        = vectorize_skeleton K skel pixel_size (Some tf) (Some cr) epsg origin_xy)
  /\ (forall b d : float,
        geo_point
          (Affine.mk 0x1.3333333333333p-2 b 500000 d (-0x1.3333333333333p-2) 4000000)
          (10, 20)
        = (500003%float, 3999994%float)).
Proof.
  intros Hf to_world. split; [|split].
  - rewrite (vectorize_skeleton_geometry K skel pixel_size (Some tf) (Some cr) epsg origin_xy Hf).
    reflexivity.
  - intros b' d'. reflexivity.
  - intros b d. unfold geo_point. cbn [Affine.a Affine.c Affine.e Affine.f fst snd].
    vm_compute. reflexivity.
Qed.

(** C1 at work: the diagonal mask under the north-up transform. *)
Lemma georeferenced_mapping_witness :
  LineString_faithful Demo.world /\
  geometry (vectorize_skeleton Demo.world Demo.diagonal_mask 1
              (Some Demo.north_up) (Some Demo.utm33) None None)
  = [[(500000, 4000000);
      (500000 + 1 * 0x1.3333333333333p-2, 4000000 + 1 * -0x1.3333333333333p-2);
      (500000 + 2 * 0x1.3333333333333p-2, 4000000 + 2 * -0x1.3333333333333p-2)]]%float.
Proof.
  split; [exact demo_line_string_faithful|].
  destruct (georeferenced_mapping Demo.world Demo.diagonal_mask 1 Demo.north_up
              Demo.utm33 None None demo_line_string_faithful) as [H _].
  rewrite H. vm_compute. reflexivity.
Defined.

Lemma diagonal_length (n : nat) : List.length (diagonal n) = S n.
Proof. unfold diagonal. now rewrite length_map, length_seq. Qed.

(** The fallback map with pixel size 1 and origin (0, 0) sends the
    diagonal trace to (0,0), (1,-1), ..., (n,-n). *)
Lemma diagonal_unit_image (n : nat) :
  Z.of_nat n < 2 ^ 53 ->
  map (fallback_point 0 0 1) (diagonal n)
  = map (fun i => (float_of_int (Z.of_nat i), float_of_int (- Z.of_nat i)))
      (seq 0 (S n)).
Proof.
  intros Hn. unfold diagonal. rewrite map_map. apply map_ext_in.
  intros i Hi. apply in_seq in Hi. apply fallback_point_unit. lia.
Qed.

(** C2. On the fallback path every traced pixel (col, row) is mapped to
    (origin_x + col*pixel_size, origin_y - row*pixel_size), the origin
    being (0, 0) when none is given; the frame carries the system of the
    EPSG code, if one is given.  In particular the diagonal trace from
    (0,0) to (n,n), with pixel size 1 and origin (0,0), becomes the line
    (0,0), (1,-1), ..., (n,-n). *)
Theorem fallback_mapping (K : Collaborators) (skel : BinaryMask)
    (pixel_size : float) (transform : option Affine.t) (crs_tag : option CRS)
    (epsg : option Z) (origin_xy : option (float * float)) :
  LineString_faithful K ->
  transform = None \/ crs_tag = None ->
  let origin :=
    match origin_xy with
    | None => (0%float, 0%float)
    | Some o => o
    end in
  let to_world := fun p : Pixel =>
    ((fst origin + float_of_int (fst p) * pixel_size)%float,
     (snd origin - float_of_int (snd p) * pixel_size)%float) in
  let gdf := vectorize_skeleton K skel pixel_size transform crs_tag epsg origin_xy in
  geometry gdf
  = map (map to_world)
      (filter (becomes_line K to_world) (findContours K (times_255 skel)))
  /\ crs gdf = option_map (CRS_from_epsg K) epsg
  /\ (forall n : nat,
        (1 <= n)%nat -> Z.of_nat n < 2 ^ 53 ->
        pixel_size = 1%float -> origin = (0%float, 0%float) ->
        LineString_accepts_lines K ->
        findContours K (times_255 skel) = [diagonal n] ->
        geometry gdf
        = [map (fun i => (float_of_int (Z.of_nat i), float_of_int (- Z.of_nat i)))
             (seq 0 (S n))]).
Proof.
  intros Hf Hbranch origin to_world gdf.
  assert (Hw : pixel_to_world pixel_size transform crs_tag origin_xy
               = fallback_point (fst origin) (snd origin) pixel_size).
  { unfold pixel_to_world, origin.
    destruct Hbranch as [-> | ->]; [|destruct transform];
      destruct origin_xy as [[x0 y0]|]; reflexivity. }
  assert (Hg : geometry gdf
               = map (map to_world)
                   (filter (becomes_line K to_world) (findContours K (times_255 skel)))).
  { unfold gdf. rewrite vectorize_skeleton_geometry by exact Hf. rewrite Hw. reflexivity. }
  split; [exact Hg|split].
  - unfold gdf, vectorize_skeleton.
    destruct Hbranch as [-> | ->]; [|destruct transform];
      destruct origin_xy as [[x0 y0]|], epsg as [code|]; reflexivity.
  - intros n Hn Hbound Hps Ho Hacc Hcnt.
    rewrite Hg, Hcnt. cbn [filter].
    assert (Himg : map to_world (diagonal n)
                   = map (fun i => (float_of_int (Z.of_nat i), float_of_int (- Z.of_nat i)))
                       (seq 0 (S n))).
    { rewrite <- diagonal_unit_image by exact Hbound.
      unfold to_world. rewrite Ho, Hps. reflexivity. }
    unfold becomes_line. rewrite diagonal_length.
    replace (2 <=? S n)%nat with true by (symmetry; apply Nat.leb_le; lia).
    rewrite Hacc by (rewrite length_map, diagonal_length; lia).
    cbn [andb map]. now rewrite Himg.
Qed.

(** C2 at work: the three-pixel diagonal. *)
Lemma fallback_mapping_witness :
  (LineString_faithful Demo.world /\ LineString_accepts_lines Demo.world
   /\ findContours Demo.world (times_255 Demo.diagonal_mask) = [diagonal 2])
  /\ geometry (vectorize_skeleton Demo.world Demo.diagonal_mask 1 None None None None)
     = [[(0, 0); (1, -1); (2, -2)]]%float.
Proof.
  assert (Hc : findContours Demo.world (times_255 Demo.diagonal_mask) = [diagonal 2])
    by (vm_compute; reflexivity).
  split; [split; [exact demo_line_string_faithful | split; [exact demo_line_string_accepts | exact Hc]]|].
  destruct (fallback_mapping Demo.world Demo.diagonal_mask 1 None None None None
              demo_line_string_faithful (or_introl eq_refl)) as (_ & _ & H).
  rewrite (H 2%nat); [vm_compute; reflexivity | lia | reflexivity | reflexivity
                     | reflexivity | exact demo_line_string_accepts | exact Hc].
Defined.

(** C8. Whatever the mask and the branch, every geometry of the
    collection has at least two points: the collection holds one line per
    contour that has two or more vertices and that shapely accepts, in
    order, and nothing for the others (no empty line, no placeholder). *)
Theorem vectorized_lines_have_two_points (K : Collaborators) (skel : BinaryMask)
    (pixel_size : float) (transform : option Affine.t) (crs_tag : option CRS)
    (epsg : option Z) (origin_xy : option (float * float)) :
  LineString_faithful K ->
  let gdf := vectorize_skeleton K skel pixel_size transform crs_tag epsg origin_xy in
  let to_world := pixel_to_world pixel_size transform crs_tag origin_xy in
  let kept := filter (becomes_line K to_world) (findContours K (times_255 skel)) in
  Forall (fun line => (2 <= List.length line)%nat) (geometry gdf)
  /\ geometry gdf = map (map to_world) kept
  /\ (forall cnt, In cnt kept <->
        In cnt (findContours K (times_255 skel))
        /\ (2 <= List.length cnt)%nat
        /\ LineString K (map to_world cnt) <> None).
Proof.
  intros Hf gdf to_world kept.
  assert (Hg : geometry gdf = map (map to_world) kept)
    by (apply vectorize_skeleton_geometry; exact Hf).
  split; [|split].
  - rewrite Hg. apply Forall_forall. intros line Hin.
    apply in_map_iff in Hin. destruct Hin as (cnt & <- & Hcnt).
    apply filter_In in Hcnt. destruct Hcnt as [_ Hb].
    rewrite length_map. eapply becomes_line_two_points; exact Hb.
  - exact Hg.
  - intros cnt. unfold kept. rewrite filter_In. unfold becomes_line.
    rewrite andb_true_iff, Nat.leb_le.
    destruct (LineString K (map to_world cnt)); intuition congruence.
Qed.

(** C8 at work: a two-pixel trace is kept, an isolated pixel is dropped. *)
Lemma vectorized_lines_have_two_points_witness :
  LineString_faithful Demo.world /\
  (findContours Demo.world (times_255 Demo.dotted_mask) = [[(1, 0); (2, 0)]; [(0, 2)]]
   /\ Forall (fun line => (2 <= List.length line)%nat)
        (geometry (vectorize_skeleton Demo.world Demo.dotted_mask 1 None None None None))
   /\ List.length
        (geometry (vectorize_skeleton Demo.world Demo.dotted_mask 1 None None None None))
      = 1%nat).
Proof.
  split; [exact demo_line_string_faithful|].
  destruct (vectorized_lines_have_two_points Demo.world Demo.dotted_mask 1
              None None None None demo_line_string_faithful) as (Hall & Hg & _).
  split; [vm_compute; reflexivity|]. split; [exact Hall|].
  rewrite Hg. vm_compute. reflexivity.
Defined.

(** C9. A skeleton mask with no foreground pixel gives an empty
    collection on either branch, as long as the contour tracer reports
    only foreground pixels. *)
Theorem blank_mask_gives_no_geometry (K : Collaborators) (skel : BinaryMask)
    (pixel_size : float) (transform : option Affine.t) (crs_tag : option CRS)
    (epsg : option Z) (origin_xy : option (float * float)) :
  all_background skel = true ->
  traces_foreground (times_255 skel) (findContours K (times_255 skel)) = true ->
  geometry (vectorize_skeleton K skel pixel_size transform crs_tag epsg origin_xy) = [].
Proof.
  intros Hbg Htr.
  assert (Hempty : Forall (fun cnt => cnt = []) (findContours K (times_255 skel))).
  { apply Forall_forall. intros cnt Hin.
    unfold traces_foreground in Htr. rewrite forallb_forall in Htr.
    specialize (Htr cnt Hin). destruct cnt as [|p cnt]; [reflexivity|].
    cbn [forallb] in Htr. rewrite (no_foreground_in_background skel p Hbg) in Htr.
    discriminate. }
  unfold vectorize_skeleton.
  destruct transform as [tf|], crs_tag as [cr|], origin_xy as [[x0 y0]|], epsg as [code|];
    cbn [geometry set_crs]; apply trace_loop_empty_contours; exact Hempty.
Qed.

(** C9 at work, on both branches. *)
Lemma blank_mask_gives_no_geometry_witness :
  (all_background Demo.blank_mask = true
   /\ traces_foreground (times_255 Demo.blank_mask)
        (findContours Demo.world (times_255 Demo.blank_mask)) = true)
  /\ geometry (vectorize_skeleton Demo.world Demo.blank_mask 1
                 (Some Demo.north_up) (Some Demo.utm33) None None) = []
  /\ geometry (vectorize_skeleton Demo.world Demo.blank_mask 1
                 None None (Some 32633) None) = [].
Proof.
  split; [split; reflexivity|].
  split; apply blank_mask_gives_no_geometry; reflexivity.
Defined.

(** C10. With a transform and a system at hand the vectorizer does not
    look at the fallback configuration: two calls that differ only in
    pixel size, origin and EPSG code return the same collection, and so
    do two runs of the whole script on a georeferenced input. *)
Theorem georeferenced_output_ignores_fallback (K : Collaborators) :
  (forall (skel : BinaryMask) (tf : Affine.t) (cr : CRS)
          (pixel_size pixel_size' : float) (epsg epsg' : option Z)
          (origin_xy origin_xy' : option (float * float)),
      vectorize_skeleton K skel pixel_size (Some tf) (Some cr) epsg origin_xy
      = vectorize_skeleton K skel pixel_size' (Some tf) (Some cr) epsg' origin_xy')
  /\ (forall (args : Args) (img : Image) (tf : Affine.t) (cr : CRS)
             (pixel_size' origin_x' origin_y' : float) (epsg' : option Z),
        read_image K (image args) = Ok (img, Some (tf, Some cr)) ->
        run (main K (with_fallback_config args pixel_size' origin_x' origin_y' epsg'))
        = run (main K args)).
Proof.
  split.
  - intros. reflexivity.
  - intros args img tf cr ps' ox' oy' epsg' Hread.
    unfold run, main, bind, lift. cbn [image with_fallback_config].
    rewrite Hread. reflexivity.
Qed.

(** C10 at work: the georeferenced scene, run with another fallback
    configuration. *)
Lemma georeferenced_output_ignores_fallback_witness :
  read_image Demo.world "scene.tif"
  = Ok (stack3 Demo.diagonal_band, Some (Demo.north_up, Some Demo.utm33))
  /\ run (main Demo.world
            (with_fallback_config (Demo.args_for "scene.tif") 25 100 200 (Some 4326)))
     = run (main Demo.world (Demo.args_for "scene.tif")).
Proof.
  assert (Hread : read_image Demo.world "scene.tif"
                  = Ok (stack3 Demo.diagonal_band, Some (Demo.north_up, Some Demo.utm33)))
    by reflexivity.
  split; [exact Hread|].
  exact (proj2 (georeferenced_output_ignores_fallback Demo.world)
           (Demo.args_for "scene.tif") _ _ _ 25%float 100%float 200%float (Some 4326) Hread).
Defined.

(** ** The length filter *)

Lemma filter_subsequence {A : Type} (keep : A -> bool) (l : list A) :
  subsequence (filter keep l) l.
Proof.
  induction l as [|x l IH]; cbn [filter].
  - constructor.
  - destruct (keep x); constructor; exact IH.
Qed.

(** The length is accumulated segment by segment, from the first. *)
Lemma length_from_snoc (acc : float) (p : Point) (mid : list Point) (q r : Point) :
  length_from acc p (mid ++ [q; r])
  = (length_from acc p (mid ++ [q]) + segment_length q r)%float.
Proof.
  revert acc p. induction mid as [|m mid IH]; intros acc p.
  - reflexivity.
  - cbn [app length_from]. apply IH.
Qed.

Lemma filter_twice {A : Type} (keep : A -> bool) (l : list A) :
  filter keep (filter keep l) = filter keep l.
Proof.
  induction l as [|x l IH]; cbn [filter]; [reflexivity|].
  destruct (keep x) eqn:Hk; cbn [filter]; [rewrite Hk, IH|]; auto.
Qed.

(** C5. When the frame, after the optional reprojection, has no system
    or a geographic one, the filter hands that frame back as it is,
    whatever the minimum length; without a reprojection that is the
    frame it was given. *)
Theorem filter_skips_without_linear_units (K : Collaborators)
    (gdf gdf' : GeoDataFrame) (project_epsg : option Z) :
  match project_epsg with
  | Some code => to_crs K gdf code
  | None => Ok gdf
  end = Ok gdf' ->
  lacks_linear_units gdf' = true ->
  (forall min_length_m : float,
      filter_by_length K gdf min_length_m project_epsg = Ok gdf')
  /\ (project_epsg = None -> gdf' = gdf).
Proof.
  intros Hre Hunits. split.
  - intros min_length_m. unfold filter_by_length. rewrite Hre.
    unfold lacks_linear_units in Hunits.
    destruct (crs gdf') as [cr|]; [rewrite Hunits|]; reflexivity.
  - intros ->. now inversion Hre.
Qed.

(** C5 at work: a frame in degrees, a frame without a system, and a
    frame reprojected to degrees. *)
Lemma filter_skips_without_linear_units_witness :
  filter_by_length Demo.world (Demo.frame_in (Some Demo.wgs84)) 5 None
  = Ok (Demo.frame_in (Some Demo.wgs84))
  /\ filter_by_length Demo.world (Demo.frame_in None) 5 None
     = Ok (Demo.frame_in None)
  /\ filter_by_length Demo.world (Demo.frame_in (Some Demo.utm33)) 5 (Some 4326)
     = Ok (Demo.frame_in (Some Demo.wgs84)).
Proof.
  split; [|split].
  - apply (filter_skips_without_linear_units Demo.world _ _ None); reflexivity.
  - apply (filter_skips_without_linear_units Demo.world _ _ None); reflexivity.
  - apply (filter_skips_without_linear_units Demo.world _ _ (Some 4326)); reflexivity.
Defined.

(** The length that the code computes is the path length of the
    specification: the sum, from the first segment to the last, of the
    Euclidean distances between consecutive vertices. *)
Lemma length_from_is_sum (acc : float) (p : Point) (rest : list Point) :
  length_from acc p rest
  = fold_left (fun total pq => (total + euclidean_distance (fst pq) (snd pq))%float)
      (consecutive_vertices (p :: rest)) acc.
Proof.
  revert acc p. induction rest as [|q rest IH]; intros acc p.
  - reflexivity.
  - cbn [length_from]. rewrite IH. reflexivity.
Qed.

Lemma line_length_is_path_length (line : LineGeometry) :
  line_length line = path_length line.
Proof.
  destruct line as [|p rest]; [reflexivity|]. apply length_from_is_sum.
Qed.

(** C6. When the frame, after the optional reprojection, has a projected
    system, the filter keeps exactly the lines whose path length, the
    sum of the Euclidean distances between consecutive vertices, is at
    least the minimum: those below it are gone, the others stay as they
    are and in their order, and the system is kept.  The length the code
    compares is that path length. *)
Theorem filter_keeps_long_lines (K : Collaborators)
    (gdf gdf' : GeoDataFrame) (min_length_m : float) (project_epsg : option Z) :
  match project_epsg with
  | Some code => to_crs K gdf code
  | None => Ok gdf
  end = Ok gdf' ->
  lacks_linear_units gdf' = false ->
  (forall line, line_length line = path_length line)
  /\ exists kept : GeoDataFrame,
       filter_by_length K gdf min_length_m project_epsg = Ok kept
       /\ crs kept = crs gdf'
       /\ geometry kept
          = filter (fun line => (min_length_m <=? path_length line)%float)
              (geometry gdf')
       /\ geometry kept
          = filter (fun line => (min_length_m <=? line_length line)%float)
              (geometry gdf')
       /\ (forall line, In line (geometry kept) <->
             In line (geometry gdf')
             /\ (min_length_m <=? path_length line)%float = true)
       /\ (forall line, (path_length line <? min_length_m)%float = true ->
             ~ In line (geometry kept))
       /\ subsequence (geometry kept) (geometry gdf').
Proof.
  intros Hre Hunits. split; [exact line_length_is_path_length|].
  assert (Hsame : filter (fun line => (min_length_m <=? line_length line)%float)
                    (geometry gdf')
                  = filter (fun line => (min_length_m <=? path_length line)%float)
                      (geometry gdf')).
  { apply filter_ext. intros line. now rewrite line_length_is_path_length. }
  exists {| geometry :=
              filter (fun line => (min_length_m <=? line_length line)%float) (geometry gdf');
            crs := crs gdf' |}.
  split.
  - unfold filter_by_length. rewrite Hre.
    unfold lacks_linear_units in Hunits.
    destruct (crs gdf') as [cr|]; [rewrite Hunits; reflexivity | discriminate].
  - cbn [geometry crs].
    split; [reflexivity|]. split; [exact Hsame|]. split; [reflexivity|].
    rewrite Hsame. split; [|split].
    + intros line. apply filter_In.
    + intros line Hlt Hin. apply filter_In in Hin. destruct Hin as [_ Hle].
      rewrite (ltb_leb_false _ _ Hlt) in Hle. discriminate.
    + apply filter_subsequence.
Qed.

(** C6 at work.  With a minimum of 5, the lines of length 3 go and the
    line of length 10 stays; the bent line, of segments 3 and 4, and the
    closed line, of segments 5, 4 and 3, stay as well, their lengths
    being 7 and 12 over all their segments. *)
Lemma filter_keeps_long_lines_witness :
  (line_length Demo.short_line = 3%float /\ line_length Demo.long_line = 10%float
   /\ line_length Demo.bent_line = 7%float /\ line_length Demo.closed_line = 12%float
   /\ path_length Demo.bent_line = 7%float /\ path_length Demo.closed_line = 12%float)
  /\ filter_by_length Demo.world (Demo.frame_in (Some Demo.utm33)) 5 None
     = Ok {| geometry := [Demo.long_line]; crs := Some Demo.utm33 |}
  /\ filter_by_length Demo.world Demo.bent_frame 5 None
     = Ok {| geometry := [Demo.bent_line; Demo.closed_line]; crs := Some Demo.utm33 |}.
Proof.
  split; [repeat split; vm_compute; reflexivity|]. split.
  - destruct (filter_keeps_long_lines Demo.world (Demo.frame_in (Some Demo.utm33))
                (Demo.frame_in (Some Demo.utm33)) 5 None eq_refl eq_refl)
      as (_ & kept & -> & Hcrs & Hgeo & _).
    destruct kept as [lines cr]. cbn [geometry crs] in Hcrs, Hgeo.
    rewrite Hcrs, Hgeo. vm_compute. reflexivity.
  - destruct (filter_keeps_long_lines Demo.world Demo.bent_frame Demo.bent_frame
                5 None eq_refl eq_refl)
      as (_ & kept & -> & Hcrs & Hgeo & _).
    destruct kept as [lines cr]. cbn [geometry crs] in Hcrs, Hgeo.
    rewrite Hcrs, Hgeo. vm_compute. reflexivity.
Defined.

(** ** Ingestion *)

(** C7 (as amended). Reading fails with a read error exactly when the one
    reader the script selects for the path (rasterio for a [.tif] or
    [.tiff] path when the module is there, OpenCV otherwise) cannot read
    the file; the other reader is never tried.  A missing path, and a
    file that neither reader decodes, fail whichever reader is selected.
    The failure ends the run at once: nothing has been written. *)
Theorem read_image_fails_with_selected_reader (K : Collaborators) (path : string) :
  ((exists err, read_image K path = Raise err /\ is_read_error err = true)
   <-> (if reads_with_rasterio K path then rasterio_open K path = None
        else imread K path = None))
  /\ (files K path = None ->
      exists err, read_image K path = Raise err /\ is_read_error err = true)
  /\ (forall bytes, files K path = Some bytes ->
        gdal_decode K bytes = None -> cv_decode K bytes = None ->
        exists err, read_image K path = Raise err /\ is_read_error err = true)
  /\ (forall (args : Args) (err : exn),
        image args = path -> read_image K path = Raise err ->
        run (main K args) = (Raise err, [])).
Proof.
  assert (Hiff :
    (exists err, read_image K path = Raise err /\ is_read_error err = true)
    <-> (if reads_with_rasterio K path then rasterio_open K path = None
         else imread K path = None)).
  { unfold read_image. destruct (reads_with_rasterio K path).
    - destruct (rasterio_open K path) as [ds|].
      + split; [|discriminate]. intros (err & Hr & He).
        destruct (ds_bands ds) as [|b0 [|b1 [|b2 [|b3 bs]]]];
          inversion Hr; subst err; discriminate.
      + split; [reflexivity|]. intros _. exists RasterioIOError. now split.
    - destruct (imread K path) as [img|].
      + split; [|discriminate]. intros (err & Hr & _). discriminate.
      + split; [reflexivity|]. intros _. exists FileNotFoundError. now split. }
  split; [exact Hiff|]. split; [|split].
  - intros Hmiss. apply Hiff. unfold rasterio_open, imread. rewrite Hmiss.
    destruct (reads_with_rasterio K path); reflexivity.
  - intros bytes Hfile Hgdal Hcv. apply Hiff. unfold rasterio_open, imread.
    rewrite Hfile, Hgdal, Hcv. destruct (reads_with_rasterio K path); reflexivity.
  - intros args err Hpath Hr. unfold run, main, bind, lift.
    rewrite Hpath, Hr. reflexivity.
Qed.

(** C7 at work: a missing file ends the run with nothing written. *)
Lemma read_image_fails_with_selected_reader_witness :
  files Demo.world "missing.png" = None
  /\ read_image Demo.world "missing.png" = Raise FileNotFoundError
  /\ run (main Demo.world (Demo.args_for "missing.png")) = (Raise FileNotFoundError, []).
Proof.
  assert (Hr : read_image Demo.world "missing.png" = Raise FileNotFoundError)
    by reflexivity.
  split; [reflexivity|]. split; [exact Hr|].
  destruct (read_image_fails_with_selected_reader Demo.world "missing.png")
    as (_ & _ & _ & Hfatal).
  exact (Hfatal (Demo.args_for "missing.png") FileNotFoundError eq_refl Hr).
Defined.

(** C7 as first stated fails: [plain.tif] exists and OpenCV decodes it,
    yet reading it fails, because rasterio is selected for the extension
    and the plain-image reader is not tried after it. *)
Lemma read_image_does_not_try_other_reader :
  (exists err, read_image Demo.world "plain.tif" = Raise err
               /\ is_read_error err = true)
  /\ ~ (files Demo.world "plain.tif" = None
        \/ exists bytes, files Demo.world "plain.tif" = Some bytes
                         /\ gdal_decode Demo.world bytes = None
                         /\ cv_decode Demo.world bytes = None).
Proof.
  split.
  - exists RasterioIOError. split; reflexivity.
  - intros [Hmiss | (bytes & Hfile & _ & Hcv)].
    + discriminate Hmiss.
    + cbn in Hfile. inversion Hfile; subst bytes. discriminate Hcv.
Qed.

(** ** The raster writer *)

(** What [save_binary] writes: through rasterio the mask itself, through
    OpenCV the mask times 255. *)
Lemma save_binary_trace (K : Collaborators) (binary : BinaryMask)
    (out_path : string) (transform : option Affine.t) (crs_tag : option CRS) :
  run (save_binary K binary out_path transform crs_tag)
  = (Ok tt,
     [match rasterio_available K, transform, crs_tag with
      | true, Some tf, Some cr =>
          GTiffWrite out_path (grid_height binary) (grid_width binary)
            (map (map astype_uint8) binary) tf cr
      | _, _, _ => ImWrite (replace out_path ".tif" ".png") (times_255 binary)
      end]).
Proof.
  unfold run, save_binary, emit.
  destruct (rasterio_available K), transform, crs_tag; reflexivity.
Qed.

(** C3 (the code departs from it). Through OpenCV a 0/1 mask is stored
    as 0/255; through rasterio the same mask is stored as 0/1: the
    foreground pixel of the one-row mask [[1; 0]] is written as 1. *)
Theorem save_binary_geotiff_stores_ones :
  run (save_binary Demo.world [[1; 0]] "out/terrace_edges.tif"
         (Some Demo.north_up) (Some Demo.utm33))
  = (Ok tt, [GTiffWrite "out/terrace_edges.tif" 1 2 [[1; 0]] Demo.north_up Demo.utm33])
  /\ run (save_binary Demo.world [[1; 0]] "out/terrace_edges.tif" None None)
     = (Ok tt, [ImWrite "out/terrace_edges.png" [[255; 0]]]).
Proof.
  split; rewrite save_binary_trace; reflexivity.
Qed.

(** ** The driver *)

(** The shape of every run: one that reaches the end has written both
    rasters into the output directory before it creates that directory;
    one that stops early has created no directory at all. *)
Lemma main_trace_shape (K : Collaborators) (args : Args) :
  match run (main K args) with
  | (Ok _, tr) =>
      exists edges skel rest,
        tr = edges :: skel :: Mkdir (out args) :: rest
        /\ is_output_write edges = true /\ is_output_write skel = true
        /\ mkdir_precedes_writes (out args) false tr = false
  | (Raise _, tr) =>
      tr = [] \/ exists edges skel,
                   tr = [edges; skel]
                   /\ is_output_write edges = true /\ is_output_write skel = true
  end.
Proof.
  unfold run, main, bind, lift.
  destruct (read_image K (image args)) as [[img geo]|err]; [|now left].
  destruct (canny_and_skeleton K img (t1 args) (t2 args) (kernel args)) as [edges_bin skel].
  set (transform := match geo with Some (tf, _) => Some tf | None => None end).
  set (crs_tag := match geo with Some (_, cr) => cr | None => None end).
  assert (Hgeo : match geo with Some (tf, cr) => (Some tf, cr) | None => (None, None) end
                 = (transform, crs_tag))
    by (destruct geo as [[tf cr]|]; reflexivity).
  rewrite Hgeo.
  unfold save_binary, emit.
  destruct (rasterio_available K), transform as [tf|], crs_tag as [cr|]; cbn [app];
    match goal with
    | |- context [filter_by_length K ?g ?m ?p] =>
        destruct (filter_by_length K g m p) as [kept|err]
    end;
    try (right; do 2 eexists; repeat split; reflexivity);
    unfold write_vectors, bind, emit, ret; destruct (as_gpkg args); cbn [app];
    do 3 eexists; repeat split; reflexivity.
Qed.

(** C4 (the code departs from it). The output directory is created by
    [write_vectors], after both masks have been written into it: on the
    plain image [photo.png] the two raster writes are the first two
    events of the run and [Mkdir] is the third, and every run that
    reaches the end has this shape. *)
Theorem main_writes_rasters_before_mkdir :
  snd (run (main Demo.world (Demo.args_for "photo.png")))
  = [ImWrite "out/terrace_edges.png" [[255; 255; 0]; [0; 0; 0]; [0; 255; 0]];
     ImWrite "out/terrace_skeleton.png" [[255; 255; 0]; [0; 0; 0]; [0; 255; 0]];
     Mkdir "out";
     ToFile "out/terrace_lines.shp" None None
       {| geometry := [[(0, 0); (0x1.3333333333333p-2, 0)]]%float; crs := None |};
     Print ["Outputs written to:"%string; "out"%string];
     Print ["Vector file:"%string; "out/terrace_lines.shp"%string]]
  /\ mkdir_precedes_writes "out" false
       (snd (run (main Demo.world (Demo.args_for "photo.png")))) = false
  /\ (forall (K : Collaborators) (args : Args) (tr : list Event),
        run (main K args) = (Ok tt, tr) ->
        mkdir_precedes_writes (out args) false tr = false).
Proof.
  split; [vm_compute; reflexivity|]. split; [vm_compute; reflexivity|].
  intros K args tr Hrun. pose proof (main_trace_shape K args) as Hshape.
  rewrite Hrun in Hshape. destruct Hshape as (edges & skel & rest & _ & _ & _ & H).
  exact H.
Qed.

(** Filtering is idempotent: without a reprojection, the frame that the
    filter returns passes through the filter unchanged. *)
Theorem filter_by_length_idempotent (K : Collaborators)
    (gdf kept : GeoDataFrame) (min_length_m : float) :
  filter_by_length K gdf min_length_m None = Ok kept ->
  filter_by_length K kept min_length_m None = Ok kept.
Proof.
  unfold filter_by_length. destruct (crs gdf) as [cr|] eqn:Hcrs.
  - destruct (is_geographic cr) eqn:Hgeo; intros H; inversion H; subst kept; clear H.
    + rewrite Hcrs, Hgeo. reflexivity.
    + cbn [crs geometry]. rewrite Hgeo, filter_twice. reflexivity.
  - intros H. inversion H; subst kept. rewrite Hcrs. reflexivity.
Qed.

(** Idempotence at work on the frame with two short lines and a long one. *)
Lemma filter_by_length_idempotent_witness :
  filter_by_length Demo.world (Demo.frame_in (Some Demo.utm33)) 5 None
  = Ok {| geometry := [Demo.long_line]; crs := Some Demo.utm33 |}
  /\ filter_by_length Demo.world
       {| geometry := [Demo.long_line]; crs := Some Demo.utm33 |} 5 None
     = Ok {| geometry := [Demo.long_line]; crs := Some Demo.utm33 |}.
Proof.
  assert (H : filter_by_length Demo.world (Demo.frame_in (Some Demo.utm33)) 5 None
              = Ok {| geometry := [Demo.long_line]; crs := Some Demo.utm33 |})
    by (vm_compute; reflexivity).
  split; [exact H|].
  exact (filter_by_length_idempotent Demo.world _ _ 5%float H).
Defined.

(** ** The whole run *)

Lemma save_binary_run (K : Collaborators) (binary : BinaryMask)
    (out_path : string) (transform : option Affine.t) (crs_tag : option CRS)
    (tr : list Event) :
  save_binary K binary out_path transform crs_tag tr
  = (Ok tt, tr ++ [raster_event K binary out_path transform crs_tag]).
Proof.
  unfold save_binary, raster_event, emit.
  destruct (rasterio_available K), transform, crs_tag; reflexivity.
Qed.

Lemma main_run (K : Collaborators) (args : Args) :
  run (main K args)
  = match read_image K (image args) with
    | Raise err => (Raise err, [])
    | Ok (img, geo) =>
        let edges_bin := fst (canny_and_skeleton K img (t1 args) (t2 args) (kernel args)) in
        let skel := snd (canny_and_skeleton K img (t1 args) (t2 args) (kernel args)) in
        let rasters :=
          [raster_event K edges_bin (path_join (out args) "terrace_edges.tif")
             (transform_of geo) (crs_of geo);
           raster_event K skel (path_join (out args) "terrace_skeleton.tif")
             (transform_of geo) (crs_of geo)] in
        match filter_by_length K (vectorized K args skel geo)
                (min_length args) (project_epsg args) with
        | Raise err => (Raise err, rasters)
        | Ok kept =>
            (Ok tt,
             rasters ++
             [Mkdir (out args);
              ToFile (vector_path (out args) (as_gpkg args))
                (if as_gpkg args then Some "terraces"%string else None)
                (if as_gpkg args then Some "GPKG"%string else None) kept;
              Print ["Outputs written to:"%string; out args];
              Print ["Vector file:"%string; vector_path (out args) (as_gpkg args)]])
        end
    end.
Proof.
  unfold run, main, bind, lift.
  destruct (read_image K (image args)) as [[img geo]|err]; [|reflexivity].
  destruct (canny_and_skeleton K img (t1 args) (t2 args) (kernel args)) as [edges_bin skel].
  cbn [fst snd].
  unfold vectorized.
  destruct geo as [[tf [cr|]]|]; cbn [transform_of crs_of];
    rewrite !save_binary_run; cbn [app];
    match goal with
    | |- context [filter_by_length K ?g ?m ?p] =>
        destruct (filter_by_length K g m p) as [kept|err]
    end; try reflexivity;
    unfold write_vectors, vector_path, bind, emit, ret; destruct (as_gpkg args); reflexivity.
Qed.

(** ** Masks are binary *)

Lemma pixels_in_map (allowed : list Z) {A : Type} (f : A -> Z) (g : list (list A)) :
  (forall x, existsb (Z.eqb (f x)) allowed = true) ->
  pixels_in allowed (map (map f) g) = true.
Proof.
  intros Hf. unfold pixels_in. apply forallb_forall. intros row Hrow.
  apply in_map_iff in Hrow. destruct Hrow as (row0 & <- & _).
  apply forallb_forall. intros v Hv.
  apply in_map_iff in Hv. destruct Hv as (x & <- & _). apply Hf.
Qed.

Lemma pixels_in_map_binary (allowed : list Z) (f : Z -> Z) (g : Grid) :
  existsb (Z.eqb (f 0)) allowed = true ->
  existsb (Z.eqb (f 1)) allowed = true ->
  pixels_in [0; 1] g = true ->
  pixels_in allowed (map (map f) g) = true.
Proof.
  intros H0 H1 Hg. unfold pixels_in in *. rewrite forallb_forall in Hg.
  apply forallb_forall. intros row Hrow.
  apply in_map_iff in Hrow. destruct Hrow as (row0 & <- & Hrow0).
  specialize (Hg row0 Hrow0). rewrite forallb_forall in Hg.
  apply forallb_forall. intros v Hv.
  apply in_map_iff in Hv. destruct Hv as (x & <- & Hx).
  specialize (Hg x Hx). cbn [existsb] in Hg.
  rewrite orb_false_r in Hg. apply orb_true_iff in Hg.
  destruct Hg as [Hg|Hg]; apply Z.eqb_eq in Hg; subst x; assumption.
Qed.

Lemma canny_masks_binary (K : Collaborators) (image_bgr : Image) (t1 t2 kernel : Z) :
  pixels_in [0; 1] (fst (canny_and_skeleton K image_bgr t1 t2 kernel)) = true
  /\ pixels_in [0; 1] (snd (canny_and_skeleton K image_bgr t1 t2 kernel)) = true.
Proof.
  unfold canny_and_skeleton. cbn [fst snd]. split.
  - apply pixels_in_map. intros v. unfold positive_to_uint8.
    destruct (0 <? v); reflexivity.
  - apply pixels_in_map. intros v. destruct v; reflexivity.
Qed.

(** Both masks of [canny_and_skeleton] hold only 0 and 1, whatever the
    detector and the thinning return; the edge mask has the shape of the
    detector's output, and the skeleton is the thinning of the very edge
    mask that is returned. *)
Theorem canny_and_skeleton_masks_are_binary (K : Collaborators)
    (image_bgr : Image) (t1 t2 kernel : Z) :
  let masks := canny_and_skeleton K image_bgr t1 t2 kernel in
  pixels_in [0; 1] (fst masks) = true
  /\ pixels_in [0; 1] (snd masks) = true
  /\ same_shape (fst masks)
       (Canny K (GaussianBlur K (cvtColor_BGR2GRAY K image_bgr) kernel) t1 t2)
  /\ snd masks = map (map bool_to_uint8) (skeletonize K (fst masks)).
Proof.
  intros masks.
  destruct (canny_masks_binary K image_bgr t1 t2 kernel) as [He Hs].
  split; [exact He|]. split; [exact Hs|].
  unfold masks, canny_and_skeleton. cbn [fst snd]. split.
  - unfold same_shape. rewrite map_map. apply map_ext. intros row.
    apply length_map.
  - reflexivity.
Qed.

Lemma raster_event_pixels (K : Collaborators) (binary : BinaryMask)
    (out_path : string) (transform : option Affine.t) (crs_tag : option CRS) :
  pixels_in [0; 1] binary = true ->
  raster_pixels_in [0; 255] [0; 1]
    (raster_event K binary out_path transform crs_tag) = true.
Proof.
  intros Hb. unfold raster_event.
  destruct (rasterio_available K), transform, crs_tag; cbn [raster_pixels_in];
    try (apply pixels_in_map_binary; [reflexivity | reflexivity | exact Hb]).
Qed.

(** Whatever the input and the libraries, the rasters that a run writes
    are binary: a plain image holds only 0 and 255, a georeferenced
    raster only 0 and 1. *)
Theorem main_writes_binary_rasters (K : Collaborators) (args : Args) :
  forallb (raster_pixels_in [0; 255] [0; 1]) (snd (run (main K args))) = true.
Proof.
  rewrite main_run.
  destruct (read_image K (image args)) as [[img geo]|err]; [|reflexivity].
  destruct (canny_masks_binary K img (t1 args) (t2 args) (kernel args)) as [He Hs].
  cbv zeta.
  destruct (filter_by_length K _ _ _) as [kept|err]; cbn [snd app forallb];
    rewrite !raster_event_pixels by assumption; reflexivity.
Qed.

(** ** Ingestion: what comes back *)

(** What [read_image] hands back, read backwards.  A georeference comes
    back only from a file read through rasterio, and then its transform
    and system are the file's own; an image without georeference was
    read by OpenCV; and without rasterio no georeference ever comes
    back, whatever the extension. *)
Theorem read_image_outcomes (K : Collaborators) (path : string) :
  (forall img tf cr,
      read_image K path = Ok (img, Some (tf, cr)) ->
      reads_with_rasterio K path = true
      /\ exists ds, rasterio_open K path = Some ds
                    /\ ds_bands ds <> [] /\ tf = ds_transform ds /\ cr = ds_crs ds)
  /\ (forall img,
        read_image K path = Ok (img, None) ->
        reads_with_rasterio K path = false /\ imread K path = Some img)
  /\ (rasterio_available K = false ->
      forall img geo, read_image K path = Ok (img, geo) -> geo = None).
Proof.
  split; [|split].
  - intros img tf cr H. unfold read_image in H.
    destruct (reads_with_rasterio K path); [split; [reflexivity|]|].
    + destruct (rasterio_open K path) as [ds|]; [|discriminate H].
      exists ds. split; [reflexivity|].
      destruct (ds_bands ds) as [|b0 [|b1 [|b2 [|b3 bs]]]];
        inversion H; subst; repeat split; discriminate.
    + destruct (imread K path); discriminate H.
  - intros img H. unfold read_image in H.
    destruct (reads_with_rasterio K path).
    + destruct (rasterio_open K path) as [ds|]; [|discriminate H].
      destruct (ds_bands ds) as [|b0 [|b1 [|b2 [|b3 bs]]]]; discriminate H.
    + destruct (imread K path) as [img0|]; inversion H. split; reflexivity.
  - intros Hav img geo H. unfold read_image, reads_with_rasterio in H.
    rewrite Hav in H. cbn [andb] in H.
    destruct (imread K path); inversion H. reflexivity.
Qed.

(** ** Ingestion: the channels of the image *)

Lemma zip3_rows_channels (r0 r1 r2 : list Z) :
  List.length r0 = List.length r1 -> List.length r0 = List.length r2 ->
  map (fun px => nth 0 px 0) (zip3_with (fun v0 v1 v2 => [v2; v1; v0]) r0 r1 r2) = r2
  /\ map (fun px => nth 1 px 0) (zip3_with (fun v0 v1 v2 => [v2; v1; v0]) r0 r1 r2) = r1
  /\ map (fun px => nth 2 px 0) (zip3_with (fun v0 v1 v2 => [v2; v1; v0]) r0 r1 r2) = r0.
Proof.
  revert r1 r2. induction r0 as [|v0 r0 IH]; intros [|v1 r1] [|v2 r2] H1 H2;
    try discriminate; cbn [zip3_with map nth].
  - repeat split.
  - injection H1 as H1. injection H2 as H2.
    destruct (IH r1 r2 H1 H2) as (-> & -> & ->). repeat split.
Qed.

Lemma bands_to_bgr_channels (b0 b1 b2 : Grid) :
  same_shape b0 b1 -> same_shape b0 b2 ->
  channel 0 (bands_to_bgr b0 b1 b2) = b2
  /\ channel 1 (bands_to_bgr b0 b1 b2) = b1
  /\ channel 2 (bands_to_bgr b0 b1 b2) = b0.
Proof.
  unfold same_shape, channel, bands_to_bgr.
  revert b1 b2. induction b0 as [|r0 b0 IH]; intros [|r1 b1] [|r2 b2] H1 H2;
    try discriminate; cbn [zip3_with map].
  - repeat split.
  - cbn [map] in H1, H2. injection H1 as Hr1 H1. injection H2 as Hr2 H2.
    destruct (IH b1 b2 H1 H2) as (-> & -> & ->).
    destruct (zip3_rows_channels r0 r1 r2 Hr1 Hr2) as (-> & -> & ->).
    repeat split.
Qed.

Lemma stack3_channels (band : Grid) (k : nat) :
  (k < 3)%nat -> channel k (stack3 band) = band.
Proof.
  intros Hk. unfold channel, stack3. rewrite map_map.
  rewrite <- (map_id band) at 2. apply map_ext. intros row.
  rewrite map_map. rewrite <- (map_id row) at 2. apply map_ext. intros v.
  destruct k as [|[|[|k]]]; try reflexivity. lia.
Qed.

(** A file read through rasterio comes back with its channels in the
    order OpenCV expects: three bands of one shape (red, green, blue)
    become the channels blue, green, red; with any other number of bands
    the first band fills all three channels and the others are not
    looked at. *)
Theorem read_image_channels (K : Collaborators) (path : string) (ds : Dataset) :
  reads_with_rasterio K path = true ->
  rasterio_open K path = Some ds ->
  (forall b0 b1 b2,
      ds_bands ds = [b0; b1; b2] -> same_shape b0 b1 -> same_shape b0 b2 ->
      exists img,
        read_image K path = Ok (img, Some (ds_transform ds, ds_crs ds))
        /\ channel 0 img = b2 /\ channel 1 img = b1 /\ channel 2 img = b0)
  /\ (forall band others,
        ds_bands ds = band :: others -> List.length others <> 2%nat ->
        exists img,
          read_image K path = Ok (img, Some (ds_transform ds, ds_crs ds))
          /\ channel 0 img = band /\ channel 1 img = band /\ channel 2 img = band).
Proof.
  intros Hsel Hopen. unfold read_image. rewrite Hsel, Hopen. split.
  - intros b0 b1 b2 Hb H1 H2. rewrite Hb.
    exists (bands_to_bgr b0 b1 b2). split; [reflexivity|].
    apply bands_to_bgr_channels; assumption.
  - intros band others Hb Hlen. rewrite Hb. exists (stack3 band).
    split.
    + destruct others as [|b1 [|b2 [|b3 bs]]]; try reflexivity.
      now elim Hlen.
    + repeat split; apply stack3_channels; lia.
Qed.

(** ** Vectorizer and filter together *)

(** The lines that leave the filter still have two points or more, as
    many lines at most as there were contours: the filter only drops
    lines, and a reprojection moves points without changing their
    number. *)
Theorem filtered_lines_have_two_points (K : Collaborators) (skel : BinaryMask)
    (pixel_size : float) (transform : option Affine.t) (crs_tag : option CRS)
    (epsg : option Z) (origin_xy : option (float * float))
    (min_length_m : float) (project_epsg : option Z) (kept : GeoDataFrame) :
  LineString_faithful K ->
  reproject_keeps_points K ->
  filter_by_length K
    (vectorize_skeleton K skel pixel_size transform crs_tag epsg origin_xy)
    min_length_m project_epsg = Ok kept ->
  Forall (fun line => (2 <= List.length line)%nat) (geometry kept)
  /\ (List.length (geometry kept)
      <= List.length (findContours K (times_255 skel)))%nat.
Proof.
  intros Hf Hre Hfilter.
  set (gdf := vectorize_skeleton K skel pixel_size transform crs_tag epsg origin_xy) in *.
  assert (Hg : Forall (fun line => (2 <= List.length line)%nat) (geometry gdf)
               /\ (List.length (geometry gdf)
                   <= List.length (findContours K (times_255 skel)))%nat).
  { unfold gdf. rewrite vectorize_skeleton_geometry by exact Hf. split.
    - apply Forall_forall. intros line Hin.
      apply in_map_iff in Hin. destruct Hin as (cnt & <- & Hcnt).
      apply filter_In in Hcnt. destruct Hcnt as [_ Hb].
      rewrite length_map. eapply becomes_line_two_points; exact Hb.
    - rewrite length_map. apply filter_length_le. }
  destruct Hg as [Hall Hcount].
  assert (Hstep : forall mid : GeoDataFrame,
             match project_epsg with
             | Some code => to_crs K gdf code
             | None => Ok gdf
             end = Ok mid ->
             Forall (fun line => (2 <= List.length line)%nat) (geometry mid)
             /\ List.length (geometry mid) = List.length (geometry gdf)).
  { intros mid Hmid. destruct project_epsg as [code|].
    - unfold to_crs in Hmid. destruct (crs gdf) as [src|]; [|discriminate Hmid].
      inversion Hmid; subst mid; clear Hmid. cbn [geometry]. split.
      + apply Forall_forall. intros line Hin.
        apply in_map_iff in Hin. destruct Hin as (line0 & <- & Hin0).
        rewrite Hre. rewrite Forall_forall in Hall. apply Hall. exact Hin0.
      + apply length_map.
    - inversion Hmid; subst mid. split; [exact Hall|reflexivity]. }
  unfold filter_by_length in Hfilter.
  destruct (match project_epsg with
            | Some code => to_crs K gdf code
            | None => Ok gdf
            end) as [mid|err] eqn:Hmid; [|discriminate Hfilter].
  destruct (Hstep mid eq_refl) as [Hmid_all Hmid_len].
  destruct (crs mid) as [cr|].
  - destruct (is_geographic cr); inversion Hfilter; subst kept; clear Hfilter.
    + split; [exact Hmid_all | lia].
    + cbn [geometry]. split.
      * apply Forall_forall. intros line Hin. apply filter_In in Hin.
        rewrite Forall_forall in Hmid_all. apply Hmid_all. apply Hin.
      * pose proof (filter_length_le
                      (fun line => (min_length_m <=? line_length line)%float)
                      (geometry mid)). lia.
  - inversion Hfilter; subst kept. split; [exact Hmid_all | lia].
Qed.

(** ** More on the binary64 order *)

Lemma SFleb_trans (x y z : spec_float) :
  SFleb x y = true -> SFleb y z = true -> SFleb x z = true.
Proof.
  unfold SFleb, SFcompare.
  destruct x as [[|]|[|]| |[|] mx ex], y as [[|]|[|]| |[|] my ey],
           z as [[|]|[|]| |[|] mz ez];
    try (intros; reflexivity); try (intros; discriminate);
    split_compares; cbn [CompOpp]; intros; try reflexivity; try discriminate;
    subst; lia.
Qed.

Lemma leb_trans (a b c : float) :
  (a <=? b)%float = true -> (b <=? c)%float = true -> (a <=? c)%float = true.
Proof. rewrite !FloatAxioms.leb_spec. apply SFleb_trans. Qed.

Lemma leb_nan_l (x : float) : (nan <=? x)%float = false.
Proof. rewrite FloatAxioms.leb_spec. reflexivity. Qed.

Lemma leb_nan_r (x : float) : (x <=? nan)%float = false.
Proof.
  rewrite FloatAxioms.leb_spec. change (Prim2SF nan) with S754_nan.
  unfold SFleb, SFcompare. destruct (Prim2SF x) as [[|]|[|]| |[|] ? ?]; reflexivity.
Qed.

(** ** The filter: failure and thresholds *)

Lemma filter_by_length_raise_cases (K : Collaborators)
    (gdf : GeoDataFrame) (min_length_m : float) (project_epsg : option Z) :
  match filter_by_length K gdf min_length_m project_epsg with
  | Raise err => err = ValueError /\ crs gdf = None /\ project_epsg <> None
  | Ok _ => crs gdf <> None \/ project_epsg = None
  end.
Proof.
  unfold filter_by_length, to_crs.
  destruct project_epsg as [code|], (crs gdf) as [src|]; cbn [crs].
  - destruct (is_geographic (CRS_from_epsg K code)); left; discriminate.
  - repeat split; discriminate.
  - destruct (is_geographic src); right; reflexivity.
  - right; reflexivity.
Qed.

(** Reprojection inside the filter needs a system to start from: on a
    frame without one the filter raises [ValueError], whatever the code
    asked for; and a frame that comes back from a reprojecting filter
    came from a frame with a system, carries the system of the code
    asked for, and has no more lines than went in. *)
Theorem filter_by_length_raises_without_crs (K : Collaborators)
    (gdf : GeoDataFrame) (min_length_m : float) :
  (crs gdf = None ->
   forall code, filter_by_length K gdf min_length_m (Some code) = Raise ValueError)
  /\ (forall code kept,
        filter_by_length K gdf min_length_m (Some code) = Ok kept ->
        crs gdf <> None
        /\ crs kept = Some (CRS_from_epsg K code)
        /\ (List.length (geometry kept) <= List.length (geometry gdf))%nat).
Proof.
  split.
  - intros Hcrs code. unfold filter_by_length, to_crs. now rewrite Hcrs.
  - intros code kept H. unfold filter_by_length, to_crs in H.
    destruct (crs gdf) as [src|]; [|discriminate H].
    split; [discriminate|]. cbn [crs geometry] in H.
    destruct (is_geographic (CRS_from_epsg K code));
      inversion H; subst kept; clear H; cbn [crs geometry];
      (split; [reflexivity|]).
    + now rewrite length_map.
    + rewrite <- (length_map (reproject K src (CRS_from_epsg K code)) (geometry gdf)).
      apply filter_length_le.
Qed.

Lemma filter_implied {A : Type} (f g : A -> bool) (l : list A) :
  (forall x, g x = true -> f x = true) ->
  filter g (filter f l) = filter g l.
Proof.
  intros Himp. induction l as [|x l IH]; cbn [filter]; [reflexivity|].
  destruct (f x) eqn:Hf; cbn [filter].
  - destruct (g x); now rewrite IH.
  - destruct (g x) eqn:Hg; [|exact IH].
    rewrite (Himp x Hg) in Hf. discriminate Hf.
Qed.

(** Filtering with a minimum and then with a larger one gives what the
    larger one gives directly: a second, stricter pass loses nothing that
    a single strict pass keeps. *)
Theorem filter_by_length_twice (K : Collaborators) (gdf first : GeoDataFrame)
    (low high : float) :
  (low <=? high)%float = true ->
  filter_by_length K gdf low None = Ok first ->
  filter_by_length K first high None = filter_by_length K gdf high None.
Proof.
  intros Hle. unfold filter_by_length. destruct (crs gdf) as [cr|] eqn:Hcrs.
  - destruct (is_geographic cr) eqn:Hgeo; intros H; inversion H; subst first; clear H.
    + rewrite Hcrs, Hgeo. reflexivity.
    + cbn [crs geometry]. rewrite Hgeo. rewrite filter_implied; [reflexivity|].
      intros line Hhigh. exact (leb_trans _ _ _ Hle Hhigh).
  - intros H. inversion H; subst first. rewrite Hcrs. reflexivity.
Qed.

(** A minimum length that is not a number empties a projected frame, and
    a line whose length is not a number never passes, whatever the
    minimum: every comparison with NaN is false. *)
Theorem filter_by_length_nan (K : Collaborators) (gdf : GeoDataFrame) :
  lacks_linear_units gdf = false ->
  filter_by_length K gdf nan None = Ok {| geometry := []; crs := crs gdf |}
  /\ (forall (min_length_m : float) (kept : GeoDataFrame) (line : LineGeometry),
        filter_by_length K gdf min_length_m None = Ok kept ->
        line_length line = nan -> ~ In line (geometry kept)).
Proof.
  intros Hunits. unfold lacks_linear_units in Hunits. unfold filter_by_length.
  destruct (crs gdf) as [cr|]; [|discriminate Hunits]. rewrite Hunits. split.
  - f_equal. f_equal. induction (geometry gdf) as [|line lines IH]; [reflexivity|].
    cbn [filter]. rewrite leb_nan_l. exact IH.
  - intros m kept line H Hnan Hin. inversion H; subst kept; clear H.
    cbn [geometry] in Hin. apply filter_In in Hin. destruct Hin as [_ Hle].
    rewrite Hnan, leb_nan_r in Hle. discriminate Hle.
Qed.

(** ** The whole run: success, failure, effects *)

Lemma vectorized_crs (K : Collaborators) (args : Args) (skel : BinaryMask)
    (geo : option (Affine.t * option CRS)) :
  crs (vectorized K args skel geo)
  = match crs_of geo with
    | Some cr => Some cr
    | None => option_map (CRS_from_epsg K) (epsg args)
    end.
Proof.
  unfold vectorized, vectorize_skeleton.
  destruct geo as [[tf [cr|]]|]; cbn [transform_of crs_of crs]; try reflexivity;
    destruct (epsg args); reflexivity.
Qed.

(** A run can succeed only if the image was read and, whenever a
    reprojection is requested, the vectors have a system to start from:
    the file's own, or the one of the EPSG option.  When a reprojection
    is requested and there is neither, the run does not succeed, and it
    neither creates the output directory nor writes the vector file. *)
Theorem main_needs_a_crs_to_reproject (K : Collaborators) (args : Args) :
  (fst (run (main K args)) = Ok tt ->
   exists img geo,
     read_image K (image args) = Ok (img, geo)
     /\ (project_epsg args = None \/ crs_of geo <> None \/ epsg args <> None))
  /\ (forall img geo,
        read_image K (image args) = Ok (img, geo) ->
        crs_of geo = None -> epsg args = None -> project_epsg args <> None ->
        fst (run (main K args)) <> Ok tt
        /\ forallb (fun ev => negb (is_any_mkdir ev || is_vector_write ev))
             (snd (run (main K args))) = true).
Proof.
  rewrite main_run.
  destruct (read_image K (image args)) as [[img geo]|err0].
  - cbv zeta.
    set (skel := snd (canny_and_skeleton K img (t1 args) (t2 args) (kernel args))).
    pose proof (filter_by_length_raise_cases K (vectorized K args skel geo)
                  (min_length args) (project_epsg args)) as Hc.
    rewrite vectorized_crs in Hc.
    assert (Hraster : forall binary path,
               negb (is_any_mkdir
                       (raster_event K binary path (transform_of geo) (crs_of geo))
                     || is_vector_write
                          (raster_event K binary path (transform_of geo) (crs_of geo)))
               = true).
    { intros binary path. unfold raster_event.
      destruct (rasterio_available K), (transform_of geo), (crs_of geo); reflexivity. }
    destruct (filter_by_length K (vectorized K args skel geo)
                (min_length args) (project_epsg args)) as [kept|err1].
    + split.
      * intros _. exists img, geo. split; [reflexivity|].
        destruct Hc as [Hc|Hc]; [|now left].
        destruct (crs_of geo) as [cr|]; [right; left; discriminate|].
        right; right. destruct (epsg args); [discriminate|now elim Hc].
      * intros img' geo' H Hcrs Hepsg Hpe. inversion H; subst img' geo'.
        rewrite Hcrs, Hepsg in Hc. cbn [option_map] in Hc.
        destruct Hc as [Hc|Hc]; [now elim Hc | now elim Hpe].
    + split.
      * intros H. discriminate H.
      * intros img' geo' H _ _ _. inversion H; subst img' geo'.
        split; [discriminate|]. cbn [snd forallb]. now rewrite !Hraster.
  - split.
    + intros H. discriminate H.
    + intros img geo H. discriminate H.
Qed.

(** ** The two branches of the vectorizer *)

Lemma trace_loop_accepted (K : Collaborators) (to_world : Pixel -> Point)
    (contours : list Contour) (lines : list LineGeometry) :
  LineString_accepts_lines K ->
  fold_left (trace_step K to_world) contours lines
  = lines ++ map (map to_world)
               (filter (fun cnt => (2 <=? List.length cnt)%nat) contours).
Proof.
  intros Hacc. revert lines.
  induction contours as [|cnt contours IH]; intros lines; cbn [fold_left filter].
  - cbn [map]. now rewrite app_nil_r.
  - rewrite IH. unfold trace_step.
    destruct (Nat.ltb_spec (List.length cnt) 2) as [Hlt|Hge].
    + replace (2 <=? List.length cnt)%nat with false
        by (symmetry; apply Nat.leb_gt; exact Hlt).
      reflexivity.
    + replace (2 <=? List.length cnt)%nat with true
        by (symmetry; apply Nat.leb_le; exact Hge).
      rewrite Hacc by (rewrite length_map; exact Hge).
      cbn [map]. now rewrite <- app_assoc.
Qed.

(** The branch decides where the points lie, not which lines there are:
    when shapely accepts every line of two points or more, both branches
    return one line per contour of two vertices or more, in the order of
    the contours and with as many points as the contour has vertices. *)
Theorem branches_trace_the_same_lines (K : Collaborators) (skel : BinaryMask)
    (pixel_size : float) (transform : option Affine.t) (crs_tag : option CRS)
    (epsg : option Z) (origin_xy : option (float * float)) :
  LineString_accepts_lines K ->
  map (@List.length Point)
    (geometry (vectorize_skeleton K skel pixel_size transform crs_tag epsg origin_xy))
  = map (@List.length Pixel)
      (filter (fun cnt => (2 <=? List.length cnt)%nat)
         (findContours K (times_255 skel))).
Proof.
  intros Hacc. unfold vectorize_skeleton.
  destruct transform as [tf|], crs_tag as [cr|], origin_xy as [[x0 y0]|], epsg as [code|];
    cbn [geometry set_crs]; rewrite trace_loop_accepted by exact Hacc;
    cbn [app]; rewrite map_map; apply map_ext; intros cnt; apply length_map.
Qed.

(** ** The first pixel lands on the origin *)

Lemma is_finite_cases (x : float) :
  is_finite x = true ->
  (exists s, Prim2SF x = S754_zero s) \/ (exists s m e, Prim2SF x = S754_finite s m e).
Proof.
  unfold is_finite, is_nan, is_infinity.
  rewrite !FloatAxioms.eqb_spec, FloatAxioms.abs_spec.
  change (Prim2SF infinity) with (S754_infinity false).
  destruct (Prim2SF x) as [s|[|]| |s m e]; cbn; intros H; try discriminate H.
  - left. now exists s.
  - right. now exists s, m, e.
Qed.

Lemma mul_zero_l_finite (x : float) :
  is_finite x = true -> exists s, Prim2SF (0 * x)%float = S754_zero s.
Proof.
  intros Hx. rewrite FloatAxioms.mul_spec.
  change (Prim2SF 0%float) with (S754_zero false).
  destruct (is_finite_cases x Hx) as [[s ->]|(s & m & e & ->)]; cbn; eauto.
Qed.

Lemma not_negative_zero (x : float) :
  x <> (-0)%float -> Prim2SF x <> S754_zero true.
Proof.
  intros Hx H. apply Hx. apply Prim2SF_inj. rewrite H. reflexivity.
Qed.

Lemma add_signed_zero_r (x z : float) (s : bool) :
  Prim2SF z = S754_zero s -> x <> (-0)%float -> (x + z)%float = x.
Proof.
  intros Hz Hx. apply not_negative_zero in Hx.
  apply Prim2SF_inj. rewrite FloatAxioms.add_spec, Hz.
  destruct (Prim2SF x) as [[|]|[|]| |sx m e]; try reflexivity.
  - now elim Hx.
  - destruct s; reflexivity.
Qed.

Lemma sub_signed_zero_r (x z : float) (s : bool) :
  Prim2SF z = S754_zero s -> x <> (-0)%float -> (x - z)%float = x.
Proof.
  intros Hz Hx. apply not_negative_zero in Hx.
  apply Prim2SF_inj. rewrite FloatAxioms.sub_spec, Hz.
  destruct (Prim2SF x) as [[|]|[|]| |sx m e]; try reflexivity.
  - now elim Hx.
  - destruct s; reflexivity.
Qed.

(** The pixel (0, 0) is mapped to the origin itself: to (c, f) on the
    georeferenced branch when the scales a and e are finite, to
    (origin_x, origin_y) on the fallback branch when the pixel size is
    finite.  (An origin coordinate written -0.0 would come back as
    0.0.) *)
Theorem first_pixel_lands_on_origin (tf : Affine.t) (x0 y0 pixel_size : float) :
  (is_finite (Affine.a tf) = true -> is_finite (Affine.e tf) = true ->
   Affine.c tf <> (-0)%float -> Affine.f tf <> (-0)%float ->
   geo_point tf (0, 0) = (Affine.c tf, Affine.f tf))
  /\ (is_finite pixel_size = true ->
      x0 <> (-0)%float -> y0 <> (-0)%float ->
      fallback_point x0 y0 pixel_size (0, 0) = (x0, y0)).
Proof.
  split.
  - intros Ha He Hc Hf. unfold geo_point. cbn [fst snd].
    change (float_of_int 0) with 0%float.
    destruct (mul_zero_l_finite _ Ha) as [sa Hza].
    destruct (mul_zero_l_finite _ He) as [se Hze].
    rewrite (add_signed_zero_r _ _ _ Hza Hc), (add_signed_zero_r _ _ _ Hze Hf).
    reflexivity.
  - intros Hp Hx Hy. unfold fallback_point. cbn [fst snd].
    change (float_of_int 0) with 0%float.
    destruct (mul_zero_l_finite _ Hp) as [sp Hzp].
    rewrite (add_signed_zero_r _ _ _ Hzp Hx), (sub_signed_zero_r _ _ _ Hzp Hy).
    reflexivity.
Qed.

(** ** Where and how the rasters are written *)

Lemma georeference_needs_rasterio (K : Collaborators) (path : string)
    (img : Image) (tf : Affine.t) (cr : option CRS) :
  read_image K path = Ok (img, Some (tf, cr)) -> rasterio_available K = true.
Proof.
  unfold read_image, reads_with_rasterio. intros H.
  destruct (rasterio_available K); [reflexivity|]. cbn [andb] in H.
  destruct (imread K path); discriminate H.
Qed.

Lemma main_trace_rasters (K : Collaborators) (args : Args)
    (img : Image) (geo : option (Affine.t * option CRS)) :
  read_image K (image args) = Ok (img, geo) ->
  exists rest,
    snd (run (main K args))
    = raster_event K
        (fst (canny_and_skeleton K img (t1 args) (t2 args) (kernel args)))
        (path_join (out args) "terrace_edges.tif") (transform_of geo) (crs_of geo)
      :: raster_event K
           (snd (canny_and_skeleton K img (t1 args) (t2 args) (kernel args)))
           (path_join (out args) "terrace_skeleton.tif") (transform_of geo) (crs_of geo)
      :: rest.
Proof.
  intros Hread. rewrite main_run, Hread. cbv zeta.
  destruct (filter_by_length K _ _ _); cbn [snd app]; eexists; reflexivity.
Qed.

(** The rasters follow the georeference of the input.  Whatever raster
    write a run makes is one of two: the edge mask, as the first event,
    and the skeleton mask, as the second.  When the file has a transform
    and a system, they go as GeoTIFF with that transform and that system
    to [terrace_edges.tif] and [terrace_skeleton.tif] of the output
    directory, the mask itself being the pixels; in every other case
    they go as plain images, the mask times 255 being the pixels. *)
Theorem rasters_follow_georeference (K : Collaborators) (args : Args)
    (img : Image) (geo : option (Affine.t * option CRS)) :
  read_image K (image args) = Ok (img, geo) ->
  let edges_bin := fst (canny_and_skeleton K img (t1 args) (t2 args) (kernel args)) in
  let skel := snd (canny_and_skeleton K img (t1 args) (t2 args) (kernel args)) in
  let edges_path := path_join (out args) "terrace_edges.tif" in
  let skel_path := path_join (out args) "terrace_skeleton.tif" in
  forall (i : nat) (ev : Event),
    nth_error (snd (run (main K args))) i = Some ev ->
    is_raster_write ev = true ->
    match geo with
    | Some (tf, Some cr) =>
        (i = 0%nat
         /\ ev = GTiffWrite edges_path (List.length edges_bin) (grid_width edges_bin)
                  (map (map astype_uint8) edges_bin) tf cr)
        \/ (i = 1%nat
            /\ ev = GTiffWrite skel_path (List.length skel) (grid_width skel)
                     (map (map astype_uint8) skel) tf cr)
    | _ =>
        (i = 0%nat
         /\ ev = ImWrite (replace edges_path ".tif" ".png") (times_255 edges_bin))
        \/ (i = 1%nat
            /\ ev = ImWrite (replace skel_path ".tif" ".png") (times_255 skel))
    end.
Proof.
  intros Hread edges_bin skel edges_path skel_path i ev Hnth Hraster.
  assert (Hevents :
            (i = 0%nat
             /\ ev = raster_event K edges_bin edges_path (transform_of geo) (crs_of geo))
            \/ (i = 1%nat
                /\ ev = raster_event K skel skel_path (transform_of geo) (crs_of geo))).
  { rewrite main_run, Hread in Hnth. cbv zeta in Hnth.
    fold edges_bin skel edges_path skel_path in Hnth.
    destruct (filter_by_length K _ _ _) as [kept|err]; cbn [snd app] in Hnth;
      destruct i as [|[|i]]; cbn [nth_error] in Hnth;
      try (left; split; [reflexivity|]; now inversion Hnth);
      try (right; split; [reflexivity|]; now inversion Hnth).
    - destruct i as [|[|[|[|i]]]]; cbn [nth_error] in Hnth;
        try (injection Hnth as Hev; rewrite <- Hev in Hraster; discriminate Hraster).
      destruct i; discriminate Hnth.
    - destruct i; discriminate Hnth. }
  unfold raster_event in Hevents.
  destruct geo as [[tf [cr|]]|]; cbn [transform_of crs_of] in Hevents.
  - rewrite (georeference_needs_rasterio K _ _ _ _ Hread) in Hevents. exact Hevents.
  - destruct (rasterio_available K); exact Hevents.
  - destruct (rasterio_available K); exact Hevents.
Qed.

Lemma replace_from_no_dot (s rest : string) :
  has_no_dot s = true ->
  replace_from ".tif" ".png" 0 (String.append s rest)
  = String.append s (replace_from ".tif" ".png" 0 rest).
Proof.
  induction s as [|ch s IH]; intros Hs; [reflexivity|].
  cbn [has_no_dot] in Hs. apply andb_true_iff in Hs. destruct Hs as [Hch Hs].
  cbn [String.append replace_from String.prefix].
  destruct (ascii_dec "."%char ch) as [<-|Hne]; [discriminate Hch|].
  cbn [String.append]. now rewrite IH.
Qed.

Lemma ends_with_slash_append (s : string) (ch : ascii) (rest : string) :
  ends_with_slash (String.append s (String ch rest)) = ends_with_slash (String ch rest).
Proof.
  induction s as [|c s IH]; [reflexivity|].
  cbn [String.append]. cbn [ends_with_slash].
  destruct (String.append s (String ch rest)) eqn:Happ.
  - destruct s; discriminate Happ.
  - exact IH.
Qed.

Lemma replace_from_match (rest : string) :
  replace_from ".tif" ".png" 0 (String.append ".tif" rest)
  = String.append ".png" (replace_from ".tif" ".png" 0 rest).
Proof.
  cbn [String.append replace_from].
  change (String.prefix ".tif" (String "." (String "t" (String "i" (String "f" rest)))))
    with (String.prefix "" rest).
  destruct rest; reflexivity.
Qed.

Lemma append_assoc (s1 s2 s3 : string) :
  String.append (String.append s1 s2) s3 = String.append s1 (String.append s2 s3).
Proof.
  induction s1 as [|ch s1 IH]; [reflexivity|]. cbn [String.append]. now rewrite IH.
Qed.

Lemma path_join_plain (dir name : string) :
  dir <> EmptyString -> ends_with_slash dir = false ->
  path_join dir name = String.append dir (String "/" name).
Proof.
  intros Hne Hs. unfold path_join. destruct dir; [now elim Hne|]. now rewrite Hs.
Qed.

(** The plain-image name of a mask is obtained by replacing [.tif] in
    the whole path, directory included.  For an output directory without
    a dot in its name the image stays in the directory, under the name
    ending in [.png]; for a directory whose name ends in [.tif] it lands
    in another directory, the one ending in [.png], which the run never
    creates. *)
Theorem plain_raster_paths (K : Collaborators) (binary : BinaryMask)
    (name : string) (transform : option Affine.t) (crs_tag : option CRS) :
  has_no_dot name = true ->
  rasterio_available K = false \/ transform = None \/ crs_tag = None ->
  (forall out_dir,
      has_no_dot out_dir = true ->
      run (save_binary K binary (path_join out_dir (String.append name ".tif"))
             transform crs_tag)
      = (Ok tt, [ImWrite (path_join out_dir (String.append name ".png"))
                   (times_255 binary)]))
  /\ (forall stem,
        has_no_dot stem = true ->
        run (save_binary K binary
               (path_join (String.append stem ".tif") (String.append name ".tif"))
               transform crs_tag)
        = (Ok tt, [ImWrite (path_join (String.append stem ".png")
                              (String.append name ".png"))
                     (times_255 binary)])).
Proof.
  intros Hname Hplain.
  assert (Hev : forall path,
             run (save_binary K binary path transform crs_tag)
             = (Ok tt, [ImWrite (replace path ".tif" ".png") (times_255 binary)])).
  { intros path. unfold run. rewrite save_binary_run. cbn [app]. unfold raster_event.
    destruct Hplain as [-> | [-> | ->]]; [reflexivity | |].
    - destruct (rasterio_available K); reflexivity.
    - destruct (rasterio_available K), transform; reflexivity. }
  assert (Hn : replace_from ".tif" ".png" 0 (String.append name ".tif")
               = String.append name ".png")
    by (rewrite replace_from_no_dot by exact Hname; reflexivity).
  assert (Hsn : replace_from ".tif" ".png" 0 (String "/" (String.append name ".tif"))
                = String "/" (String.append name ".png"))
    by (cbn [replace_from String.prefix]; now rewrite Hn).
  split.
  - intros out_dir Hout. rewrite Hev. do 3 f_equal. unfold replace, path_join.
    destruct out_dir as [|ch out_dir]; [exact Hn|].
    destruct (ends_with_slash (String ch out_dir));
      rewrite replace_from_no_dot by exact Hout; now rewrite ?Hn, ?Hsn.
  - intros stem Hstem. rewrite Hev. do 3 f_equal. unfold replace.
    assert (Hdir : forall ext, String.append stem (String "." ext) <> EmptyString)
      by (intros ext; destruct stem; discriminate).
    rewrite !path_join_plain
      by (try apply Hdir; rewrite ends_with_slash_append; reflexivity).
    rewrite !append_assoc, replace_from_no_dot by exact Hstem.
    f_equal. now rewrite replace_from_match, Hsn.
Qed.

(** ** Which reader a path selects *)

Lemma append_empty_r (s : string) : String.append s EmptyString = s.
Proof. induction s as [|ch s IH]; [reflexivity|]. cbn [String.append]. now rewrite IH. Qed.

Lemma append_char (cur : string) (ch : ascii) (rest : string) :
  String.append (String.append cur (String ch EmptyString)) rest
  = String.append cur (String ch rest).
Proof. induction cur as [|c cur IH]; [reflexivity|]. cbn [String.append]. now rewrite IH. Qed.

Lemma parts_from_no_slash (cur s : string) :
  has_no_slash s = true ->
  parts_from cur s
  = if is_dropped (String.append cur s) then [] else [String.append cur s].
Proof.
  revert cur. induction s as [|ch s IH]; intros cur Hs.
  - cbn [parts_from]. now rewrite append_empty_r.
  - cbn [has_no_slash] in Hs. apply andb_true_iff in Hs. destruct Hs as [Hch Hs].
    cbn [parts_from]. apply negb_true_iff in Hch. rewrite Hch.
    rewrite IH by exact Hs. now rewrite append_char.
Qed.

Lemma parts_from_dir (cur dir name : string) :
  has_no_slash name = true -> is_dropped name = false ->
  exists before, parts_from cur (String.append dir (String "/" name)) = before ++ [name].
Proof.
  intros Hname Hkept. revert cur. induction dir as [|ch dir IH]; intros cur.
  - cbn [String.append parts_from]. cbn [Ascii.eqb Bool.eqb].
    rewrite parts_from_no_slash by exact Hname. cbn [String.append]. rewrite Hkept.
    destruct (is_dropped cur); [now exists [] | now exists [cur]].
  - cbn [String.append parts_from]. destruct (Ascii.eqb ch "/").
    + destruct (IH EmptyString) as [before Hb]. rewrite Hb.
      destruct (is_dropped cur); [now exists before | now exists (cur :: before)].
    + apply IH.
Qed.

(** The name of a path is its last component. *)
Lemma basename_of_name (name : string) :
  has_no_slash name = true -> is_dropped name = false -> basename name = name.
Proof.
  intros Hname Hkept. unfold basename, path_parts.
  rewrite parts_from_no_slash by exact Hname. cbn [String.append]. now rewrite Hkept.
Qed.

Lemma basename_of_dir (dir name : string) :
  has_no_slash name = true -> is_dropped name = false ->
  basename (String.append dir (String "/" name)) = name.
Proof.
  intros Hname Hkept. unfold basename, path_parts.
  destruct (parts_from_dir EmptyString dir name Hname Hkept) as [before ->].
  apply last_last.
Qed.

Lemma named_is_kept (stem ext : string) :
  stem <> EmptyString -> is_dropped (String.append stem (String "." ext)) = false.
Proof.
  intros Hstem. destruct stem as [|ch stem]; [now elim Hstem|].
  unfold is_dropped. cbn [String.append String.eqb orb].
  destruct stem; cbn [String.append String.eqb]; apply andb_false_r.
Qed.

Lemma dotless_is_kept (stem : string) :
  stem <> EmptyString -> has_no_dot stem = true -> is_dropped stem = false.
Proof.
  intros Hstem Hd. destruct stem as [|ch stem]; [now elim Hstem|].
  cbn [has_no_dot] in Hd. apply andb_true_iff in Hd. destruct Hd as [Hch _].
  apply negb_true_iff in Hch. unfold is_dropped. cbn [String.eqb orb]. now rewrite Hch.
Qed.

Lemma rfind_dot_no_dot (i : nat) (found : option nat) (s : string) :
  has_no_dot s = true -> rfind_dot i found s = found.
Proof.
  revert i found. induction s as [|ch s IH]; intros i found Hs; [reflexivity|].
  cbn [has_no_dot] in Hs. apply andb_true_iff in Hs. destruct Hs as [Hch Hs].
  cbn [rfind_dot]. apply negb_true_iff in Hch. rewrite Hch. now apply IH.
Qed.

Lemma rfind_dot_last (i : nat) (found : option nat) (stem ext : string) :
  has_no_dot ext = true ->
  rfind_dot i found (String.append stem (String "." ext))
  = Some (i + String.length stem)%nat.
Proof.
  intros Hext. revert i found. induction stem as [|ch stem IH]; intros i found.
  - cbn [String.append rfind_dot String.length]. cbn [Ascii.eqb Bool.eqb].
    rewrite rfind_dot_no_dot by exact Hext. f_equal. lia.
  - cbn [String.append rfind_dot String.length]. rewrite IH. f_equal. lia.
Qed.

Lemma substring_all (s : string) : String.substring 0 (String.length s) s = s.
Proof.
  induction s as [|ch s IH]; [reflexivity|].
  cbn [String.length String.substring]. now rewrite IH.
Qed.

Lemma substring_skip (stem rest : string) :
  String.substring (String.length stem) (String.length rest) (String.append stem rest)
  = rest.
Proof.
  induction stem as [|ch stem IH]; cbn [String.length String.append].
  - apply substring_all.
  - cbn [String.substring]. exact IH.
Qed.

Lemma length_append (s1 s2 : string) :
  String.length (String.append s1 s2) = (String.length s1 + String.length s2)%nat.
Proof.
  induction s1 as [|ch s1 IH]; [reflexivity|].
  cbn [String.append String.length]. now rewrite IH.
Qed.

Lemma has_no_slash_append (s1 s2 : string) :
  has_no_slash s1 = true -> has_no_slash s2 = true ->
  has_no_slash (String.append s1 (String "." s2)) = true.
Proof.
  intros H1 H2. induction s1 as [|ch s1 IH]; cbn [String.append has_no_slash].
  - exact H2.
  - cbn [has_no_slash] in H1. apply andb_true_iff in H1. destruct H1 as [Hch H1].
    rewrite Hch. now apply IH.
Qed.

(** The suffix of a file name [stem.ext]. *)
Lemma suffix_of_name (stem ext : string) :
  stem <> EmptyString -> ext <> EmptyString ->
  has_no_slash stem = true -> has_no_slash ext = true -> has_no_dot ext = true ->
  forall path,
    path = String.append stem (String "." ext)
    \/ (exists dir, path = String.append dir
                            (String "/" (String.append stem (String "." ext)))) ->
    suffix path = String "." ext.
Proof.
  intros Hstem Hext Hs1 Hs2 Hd path Hpath.
  assert (Hname : has_no_slash (String.append stem (String "." ext)) = true)
    by (apply has_no_slash_append; [exact Hs1 | exact Hs2]).
  assert (Hbase : basename path = String.append stem (String "." ext)).
  { pose proof (named_is_kept stem ext Hstem) as Hkept.
    destruct Hpath as [-> | [dir ->]].
    - now apply basename_of_name.
    - now apply basename_of_dir. }
  unfold suffix. cbv zeta. rewrite Hbase. rewrite rfind_dot_last by exact Hd.
  cbn [Nat.add].
  rewrite length_append. cbn [String.length].
  assert (Hl1 : (0 < String.length stem)%nat)
    by (destruct stem; [now elim Hstem | cbn [String.length]; lia]).
  assert (Hl2 : (0 < String.length ext)%nat)
    by (destruct ext; [now elim Hext | cbn [String.length]; lia]).
  replace (0 <? String.length stem)%nat with true
    by (symmetry; apply Nat.ltb_lt; lia).
  replace (String.length stem <? Nat.pred (String.length stem + S (String.length ext)))%nat
    with true by (symmetry; apply Nat.ltb_lt; lia).
  cbn [andb].
  replace (String.length stem + S (String.length ext) - String.length stem)%nat
    with (String.length (String "." ext)) by (cbn [String.length]; lia).
  apply substring_skip.
Qed.

(** Which reader [read_image] selects depends on the extension alone,
    whatever its case, and on rasterio being installed: a file
    [stem.ext], in any directory, is read through rasterio exactly when
    rasterio is there and [ext] is [tif] or [tiff] in lower case; a file
    name without a dot is always read through OpenCV. *)
Theorem extension_selects_reader (K : Collaborators) (stem ext : string) :
  stem <> EmptyString -> ext <> EmptyString ->
  has_no_slash stem = true -> has_no_slash ext = true -> has_no_dot ext = true ->
  (forall path,
      path = String.append stem (String "." ext)
      \/ (exists dir, path = String.append dir
                              (String "/" (String.append stem (String "." ext)))) ->
      reads_with_rasterio K path
      = rasterio_available K
        && (String.eqb (lower ext) "tif" || String.eqb (lower ext) "tiff"))
  /\ (has_no_dot stem = true ->
      forall dir, reads_with_rasterio K stem = false
                  /\ reads_with_rasterio K (String.append dir (String "/" stem)) = false).
Proof.
  intros Hstem Hext Hs1 Hs2 Hd. split.
  - intros path Hpath. unfold reads_with_rasterio.
    rewrite (suffix_of_name stem ext Hstem Hext Hs1 Hs2 Hd path Hpath).
    reflexivity.
  - intros Hnd dir.
    assert (Hsuf : forall path, basename path = stem -> suffix path = EmptyString).
    { intros path Hb. unfold suffix. cbv zeta. rewrite Hb.
      now rewrite rfind_dot_no_dot by exact Hnd. }
    unfold reads_with_rasterio. split.
    + rewrite Hsuf by (apply basename_of_name; [exact Hs1 | now apply dotless_is_kept]).
      apply andb_false_r.
    + rewrite Hsuf by (apply basename_of_dir; [exact Hs1 | now apply dotless_is_kept]).
      apply andb_false_r.
Qed.

(** ** The properties of the pipeline at work *)

Lemma demo_reproject_keeps_points : reproject_keeps_points Demo.world.
Proof. intros src dst line. reflexivity. Qed.

(** The georeferenced scene is read through rasterio. *)
Lemma read_image_outcomes_witness :
  read_image Demo.world "scene.tif"
  = Ok (stack3 Demo.diagonal_band, Some (Demo.north_up, Some Demo.utm33))
  /\ reads_with_rasterio Demo.world "scene.tif" = true
  /\ (read_image Demo.world "photo.png" = Ok (Demo.photo, None)
      /\ imread Demo.world "photo.png" = Some Demo.photo).
Proof.
  destruct (read_image_outcomes Demo.world "scene.tif") as (Hgeo & _).
  destruct (read_image_outcomes Demo.world "photo.png") as (_ & Hplain & _).
  split; [reflexivity|]. split.
  - exact (proj1 (Hgeo _ _ _ eq_refl)).
  - split; [reflexivity|]. exact (proj2 (Hplain _ eq_refl)).
Defined.

(** The three bands red, green, blue come back as blue, green, red. *)
Lemma read_image_channels_witness :
  (reads_with_rasterio Demo.rgb_world "scene.tif" = true
   /\ rasterio_open Demo.rgb_world "scene.tif" = Some Demo.rgb_scene
   /\ same_shape Demo.red_band Demo.green_band
   /\ same_shape Demo.red_band Demo.blue_band)
  /\ exists img,
       read_image Demo.rgb_world "scene.tif" = Ok (img, Some (Demo.north_up, None))
       /\ channel 0 img = Demo.blue_band
       /\ channel 1 img = Demo.green_band
       /\ channel 2 img = Demo.red_band.
Proof.
  split; [repeat split|].
  exact (proj1 (read_image_channels Demo.rgb_world "scene.tif" Demo.rgb_scene
                  eq_refl eq_refl)
           Demo.red_band Demo.green_band Demo.blue_band eq_refl eq_refl eq_refl).
Defined.

(** The dotted mask, vectorized and filtered: one line of two points. *)
Lemma filtered_lines_have_two_points_witness :
  (LineString_faithful Demo.world /\ reproject_keeps_points Demo.world)
  /\ Forall (fun line => (2 <= List.length line)%nat)
       (geometry (vectorize_skeleton Demo.world Demo.dotted_mask 1 None None
                    (Some 32633) None))
  /\ filter_by_length Demo.world
       (vectorize_skeleton Demo.world Demo.dotted_mask 1 None None (Some 32633) None)
       1 (Some 4326)
     = Ok {| geometry := [[(1, 0); (2, 0)]]%float; crs := Some Demo.wgs84 |}.
Proof.
  assert (Hrun : filter_by_length Demo.world
                   (vectorize_skeleton Demo.world Demo.dotted_mask 1 None None
                      (Some 32633) None) 1 (Some 4326)
                 = Ok {| geometry := [[(1, 0); (2, 0)]]%float; crs := Some Demo.wgs84 |})
    by (vm_compute; reflexivity).
  split; [split; [exact demo_line_string_faithful | exact demo_reproject_keeps_points]|].
  split; [|exact Hrun].
  exact (proj1 (filtered_lines_have_two_points Demo.world Demo.dotted_mask 1
                  None None (Some 32633) None 0 None _
                  demo_line_string_faithful demo_reproject_keeps_points eq_refl)).
Defined.

(** A frame without system cannot be reprojected; a frame in UTM comes
    back in the system asked for. *)
Lemma filter_by_length_raises_without_crs_witness :
  crs (Demo.frame_in None) = None
  /\ filter_by_length Demo.world (Demo.frame_in None) 5 (Some 32633)
     = Raise ValueError
  /\ (filter_by_length Demo.world (Demo.frame_in (Some Demo.utm33)) 5 (Some 4326)
      = Ok (Demo.frame_in (Some Demo.wgs84))
      /\ crs (Demo.frame_in (Some Demo.wgs84)) = Some (CRS_from_epsg Demo.world 4326)).
Proof.
  assert (Hrun : filter_by_length Demo.world (Demo.frame_in (Some Demo.utm33)) 5
                   (Some 4326)
                 = Ok (Demo.frame_in (Some Demo.wgs84))) by reflexivity.
  split; [reflexivity|]. split.
  - exact (proj1 (filter_by_length_raises_without_crs Demo.world
                    (Demo.frame_in None) 5) eq_refl 32633).
  - split; [exact Hrun|].
    exact (proj1 (proj2 (proj2 (filter_by_length_raises_without_crs Demo.world
                                  (Demo.frame_in (Some Demo.utm33)) 5)
                           4326 _ Hrun))).
Defined.

(** A pass at 5 followed by a pass at 10, against a single pass at 10. *)
Lemma filter_by_length_twice_witness :
  ((5 <=? 10)%float = true
   /\ filter_by_length Demo.world (Demo.frame_in (Some Demo.utm33)) 5 None
      = Ok {| geometry := [Demo.long_line]; crs := Some Demo.utm33 |})
  /\ filter_by_length Demo.world
       {| geometry := [Demo.long_line]; crs := Some Demo.utm33 |} 10 None
     = filter_by_length Demo.world (Demo.frame_in (Some Demo.utm33)) 10 None.
Proof.
  assert (H5 : filter_by_length Demo.world (Demo.frame_in (Some Demo.utm33)) 5 None
               = Ok {| geometry := [Demo.long_line]; crs := Some Demo.utm33 |})
    by (vm_compute; reflexivity).
  split; [split; [reflexivity | exact H5]|].
  exact (filter_by_length_twice Demo.world _ _ 5 10 eq_refl H5).
Defined.

(** A minimum length that is not a number keeps no line. *)
Lemma filter_by_length_nan_witness :
  lacks_linear_units (Demo.frame_in (Some Demo.utm33)) = false
  /\ filter_by_length Demo.world (Demo.frame_in (Some Demo.utm33)) nan None
     = Ok {| geometry := []; crs := Some Demo.utm33 |}.
Proof.
  split; [reflexivity|].
  exact (proj1 (filter_by_length_nan Demo.world (Demo.frame_in (Some Demo.utm33)) eq_refl)).
Defined.

(** A plain image, no EPSG code, and a reprojection requested: the run
    does not succeed, and makes neither the directory nor the vector
    file. *)
Lemma main_needs_a_crs_to_reproject_witness :
  read_image Demo.world "photo.png" = Ok (Demo.photo, None)
  /\ fst (run (main Demo.world (Demo.args_reprojecting "photo.png" 32633))) <> Ok tt
  /\ forallb (fun ev => negb (is_any_mkdir ev || is_vector_write ev))
       (snd (run (main Demo.world (Demo.args_reprojecting "photo.png" 32633))))
     = true.
Proof.
  split; [reflexivity|].
  destruct (main_needs_a_crs_to_reproject Demo.world
              (Demo.args_reprojecting "photo.png" 32633)) as (_ & Hfail).
  apply (Hfail Demo.photo None); [reflexivity | reflexivity | reflexivity | discriminate].
Defined.

(** On the dotted mask either branch returns one line of two points. *)
Lemma branches_trace_the_same_lines_witness :
  LineString_accepts_lines Demo.world
  /\ map (@List.length Point)
       (geometry (vectorize_skeleton Demo.world Demo.dotted_mask 1
                    (Some Demo.north_up) (Some Demo.utm33) None None))
     = [2%nat]
  /\ map (@List.length Point)
       (geometry (vectorize_skeleton Demo.world Demo.dotted_mask 1
                    None None None None))
     = [2%nat].
Proof.
  split; [exact demo_line_string_accepts|].
  split; rewrite branches_trace_the_same_lines by exact demo_line_string_accepts;
    reflexivity.
Defined.

Lemma float_neq_by_spec (x y : float) : Prim2SF x <> Prim2SF y -> x <> y.
Proof. intros H Heq. apply H. now rewrite Heq. Qed.

(** Under the north-up transform the pixel (0, 0) is the corner
    (500000, 4000000). *)
Lemma first_pixel_lands_on_origin_witness :
  (is_finite (Affine.a Demo.north_up) = true
   /\ is_finite (Affine.e Demo.north_up) = true
   /\ Affine.c Demo.north_up <> (-0)%float
   /\ Affine.f Demo.north_up <> (-0)%float)
  /\ geo_point Demo.north_up (0, 0) = (500000%float, 4000000%float).
Proof.
  assert (Hc : Affine.c Demo.north_up <> (-0)%float)
    by (apply float_neq_by_spec; vm_compute; discriminate).
  assert (Hf : Affine.f Demo.north_up <> (-0)%float)
    by (apply float_neq_by_spec; vm_compute; discriminate).
  split; [repeat split; assumption|].
  exact (proj1 (first_pixel_lands_on_origin Demo.north_up 0 0 1) eq_refl eq_refl Hc Hf).
Defined.

(** The georeferenced scene: the second event of the run is the
    skeleton mask, written as GeoTIFF with the transform and the system
    of the scene. *)
Lemma rasters_follow_georeference_witness :
  (read_image Demo.world "scene.tif"
   = Ok (stack3 Demo.diagonal_band, Some (Demo.north_up, Some Demo.utm33))
   /\ nth_error (snd (run (main Demo.world (Demo.args_for "scene.tif")))) 1
      = Some (GTiffWrite "out/terrace_skeleton.tif" 3 3 Demo.diagonal_mask
                Demo.north_up Demo.utm33))
  /\ ((1 = 0)%nat
      /\ GTiffWrite "out/terrace_skeleton.tif" 3 3 Demo.diagonal_mask
           Demo.north_up Demo.utm33
         = GTiffWrite "out/terrace_edges.tif" 3 3 Demo.diagonal_mask
             Demo.north_up Demo.utm33
      \/ (1 = 1)%nat
         /\ GTiffWrite "out/terrace_skeleton.tif" 3 3 Demo.diagonal_mask
              Demo.north_up Demo.utm33
            = GTiffWrite "out/terrace_skeleton.tif" 3 3 Demo.diagonal_mask
                Demo.north_up Demo.utm33).
Proof.
  assert (Hnth : nth_error (snd (run (main Demo.world (Demo.args_for "scene.tif")))) 1
                 = Some (GTiffWrite "out/terrace_skeleton.tif" 3 3 Demo.diagonal_mask
                           Demo.north_up Demo.utm33))
    by (vm_compute; reflexivity).
  split; [split; [reflexivity | exact Hnth]|].
  exact (rasters_follow_georeference Demo.world (Demo.args_for "scene.tif") _ _
           eq_refl 1%nat _ Hnth eq_refl).
Defined.

(** The edge mask of a plain image: inside [out], and beside
    [survey.tif]. *)
Lemma plain_raster_paths_witness :
  (has_no_dot "terrace_edges" = true /\ has_no_dot "out" = true
   /\ has_no_dot "survey" = true)
  /\ run (save_binary Demo.world [[1; 0]] (path_join "out" "terrace_edges.tif") None None)
     = (Ok tt, [ImWrite "out/terrace_edges.png" [[255; 0]]])
  /\ run (save_binary Demo.world [[1; 0]] (path_join "survey.tif" "terrace_edges.tif")
            None None)
     = (Ok tt, [ImWrite "survey.png/terrace_edges.png" [[255; 0]]]).
Proof.
  split; [repeat split|].
  destruct (plain_raster_paths Demo.world [[1; 0]] "terrace_edges" None None eq_refl
              (or_intror (or_introl eq_refl))) as [Hin Hout].
  split.
  - exact (Hin "out"%string eq_refl).
  - exact (Hout "survey"%string eq_refl).
Defined.

(** An upper-case extension still selects rasterio. *)
Lemma extension_selects_reader_witness :
  (has_no_slash "scene" = true /\ has_no_slash "TIF" = true /\ has_no_dot "TIF" = true)
  /\ reads_with_rasterio Demo.world "data/scene.TIF" = true.
Proof.
  split; [repeat split|].
  assert (Hs : "scene"%string <> EmptyString) by discriminate.
  assert (He : "TIF"%string <> EmptyString) by discriminate.
  rewrite (proj1 (extension_selects_reader Demo.world "scene" "TIF" Hs He
                    eq_refl eq_refl eq_refl) "data/scene.TIF"%string
             (or_intror (ex_intro _ "data"%string eq_refl))).
  reflexivity.
Defined.
